(** * ftsintensity: intensity calibration of an FTS line spectrum

    A shallow embedding of [src/ftsintensity.cpp] and the properties of its
    header reader, response loader, calibration loop and header copy.

    Conventions of the embedding.
    - Text and file contents are [string]s: one [ascii] per byte.
    - [double] and [float] are IEEE 754 binary64 and binary32, taken from
      [SpecFloat] (precision 53 / exponent bound 1024, and 24 / 128), with
      round-to-nearest-even arithmetic as on x86-64 with SSE2.  The sign and
      payload of a NaN are not tracked: what is stated of a written value
      that may be a NaN is stated for every NaN encoding ([represents]).
    - The C++ streams are records holding the unread input and the [eofbit]
      and [failbit] flags; formatted extraction follows the C++11 rules.
      The files are regular files read without I/O errors: a path that is a
      directory, which [ifstream] opens and then cannot read ([badbit]), is
      outside the model.
    - A conversion to [int] of a value out of range and a vector index out
      of bounds end a run with the outcome [Undefined]: what the program
      does from there on (it may well return 0) is not modelled.
    - Variables the program leaves uninitialised enter the model as explicit
      arguments (record [Uninit]): their first value is whatever the caller
      supplies.
    - The GNU Scientific Library and the decimal-to-double conversion of the
      C++ runtime are external: they are parameters of the development. *)

From Stdlib Require Import ZArith Lia Bool Ascii.
From Stdlib Require Import Floats.SpecFloat.
From stdpp Require Import gmap strings list.

Local Open Scope Z_scope.

(* ===================================================================== *)
(** ** Characters and strings *)
(* ===================================================================== *)

Definition code (c : ascii) : Z := Z.of_N (Ascii.N_of_ascii c).

Definition newline : ascii := Ascii.ascii_of_N 10.

(** The [<cctype>] predicates in the "C" locale. *)
Definition isdigit (c : ascii) : bool := (48 <=? code c) && (code c <=? 57).
Definition isalpha (c : ascii) : bool :=
  ((65 <=? code c) && (code c <=? 90)) || ((97 <=? code c) && (code c <=? 122)).
Definition isalnum (c : ascii) : bool := isalpha c || isdigit c.
Definition isspace (c : ascii) : bool :=
  (code c =? 32) || ((9 <=? code c) && (code c <=? 13)).

Fixpoint slength (s : string) : nat :=
  match s with
  | EmptyString => O
  | String _ r => S (slength r)
  end.

Fixpoint sdrop (n : nat) (s : string) : string :=
  match n, s with
  | O, _ => s
  | S n', String _ r => sdrop n' r
  | S _, EmptyString => EmptyString
  end.

Fixpoint stake (n : nat) (s : string) : string :=
  match n, s with
  | S n', String c r => String c (stake n' r)
  | _, _ => EmptyString
  end.

Fixpoint sall (p : ascii -> bool) (s : string) : bool :=
  match s with
  | EmptyString => true
  | String c r => p c && sall p r
  end.

(** [std::string::substr (pos, len)]: throws [std::out_of_range] ([None])
    when [pos] is past the end, otherwise the characters from [pos], at most
    [len] of them. *)
Definition substr (s : string) (pos len : nat) : option string :=
  if (slength s <? pos)%nat then None else Some (stake len (sdrop pos s)).

(** Leading white space is dropped by the sentry of a formatted extraction. *)
Fixpoint skipws (s : string) : string :=
  match s with
  | String c r => if isspace c then skipws r else s
  | EmptyString => EmptyString
  end.

(** The characters up to the next white space, and what follows them. *)
Fixpoint span_token (s : string) : string * string :=
  match s with
  | String c r =>
      if isspace c then (EmptyString, s)
      else let '(t, rest) := span_token r in (String c t, rest)
  | EmptyString => (EmptyString, EmptyString)
  end.

(** [iss.str (line); iss >> field; iss.clear ();] on a [std::string] variable
    holding [old]: with no token on the line the variable keeps its value. *)
Definition first_token (line old : string) : string :=
  match skipws line with
  | EmptyString => old
  | s => fst (span_token s)
  end.

(* ===================================================================== *)
(** ** Floating point *)
(* ===================================================================== *)

Definition double := spec_float.
Definition float := spec_float.

Module D.
Definition prec : Z := 53.
Definition emax : Z := 1024.
Definition add : double -> double -> double := SFadd prec emax.
Definition mul : double -> double -> double := SFmul prec emax.
Definition leb : double -> double -> bool := SFleb.
(** [x >= y] *)
Definition geb (x y : double) : bool := SFleb y x.
(** Conversion of an [int]: exact, every 32-bit integer is a double. *)
Definition of_int (i : Z) : double := binary_normalize prec emax i 0 false.
Definition zero : double := S754_zero false.
End D.

Module F.
Definition prec : Z := 24.
Definition emax : Z := 128.
Definition div : float -> float -> float := SFdiv prec emax.
Definition zero : float := S754_zero false.

(** [(float) d]: rounding of a double to single precision. *)
Definition of_double (d : double) : float :=
  match d with
  | S754_finite s m e => binary_round prec emax s m e
  | _ => d
  end.

(** The 32 bits of a float (binary32 interchange format).  Which of the NaN
    encodings a NaN result has is left to the implementation (x86-64 gives
    [0.0f / 0.0f] the bits [0xFFC00000] and lets a NaN operand keep its sign
    and payload) and is not tracked: here a NaN has the bits [0x7FC00000].
    What is stated of a written quotient is therefore stated with
    [represents], for which every NaN encoding stands for a NaN. *)
Definition to_bits (f : float) : Z :=
  match f with
  | S754_zero s => if s then 2 ^ 31 else 0
  | S754_infinity s => (if s then 2 ^ 31 else 0) + 255 * 2 ^ 23
  | S754_nan => 255 * 2 ^ 23 + 2 ^ 22
  | S754_finite s m e =>
      (if s then 2 ^ 31 else 0) +
      (if Z.pos m <? 2 ^ 23 then Z.pos m
       else (e + 150) * 2 ^ 23 + (Z.pos m - 2 ^ 23))
  end.

Definition of_bits (b : Z) : float :=
  let s := Z.testbit b 31 in
  let ex := Z.land (Z.shiftr b 23) 255 in
  let mant := Z.land b (2 ^ 23 - 1) in
  if ex =? 0 then
    match mant with
    | Z.pos m => S754_finite s m (-149)
    | _ => S754_zero s
    end
  else if ex =? 255 then
    if mant =? 0 then S754_infinity s else S754_nan
  else
    match mant + 2 ^ 23 with
    | Z.pos m => S754_finite s m (ex - 150)
    | _ => S754_nan
    end.
End F.

(** [(int) d]: truncation toward zero; undefined ([None]) when the value does
    not fit an [int], for infinities and for NaN. *)
Definition INT_MIN : Z := - 2 ^ 31.
Definition INT_MAX : Z := 2 ^ 31 - 1.

Definition double_to_int (d : double) : option Z :=
  match d with
  | S754_zero _ => Some 0
  | S754_finite s m e =>
      let a := if 0 <=? e then Z.shiftl (Z.pos m) e else Z.shiftr (Z.pos m) (- e) in
      let v := if s then - a else a in
      if (INT_MIN <=? v) && (v <=? INT_MAX) then Some v else None
  | _ => None
  end.

(** Object representation of a [float]: four bytes, least significant first. *)
Definition byte_of (b : Z) (k : Z) : ascii :=
  Ascii.ascii_of_N (Z.to_N (Z.land (Z.shiftr b (8 * k)) 255)).

Definition bytes_of_bits (b : Z) : string :=
  String (byte_of b 0) (String (byte_of b 1) (String (byte_of b 2)
    (String (byte_of b 3) EmptyString))).

Fixpoint bits_of_bytes (s : string) : Z :=
  match s with
  | EmptyString => 0
  | String c r => code c + 256 * bits_of_bytes r
  end.

(* ===================================================================== *)
(** ** Input streams *)
(* ===================================================================== *)

(** An input stream on a regular file: the bytes not read yet and the two
    state flags the program tests.  [badbit], which a read error sets (every
    read of a path that is a directory), is not modelled: the streams are
    those of files that are read without error. *)
Record istream := IStream { pending : string; eofbit : bool; failbit : bool }.

Definition good (s : istream) : bool := negb (eofbit s) && negb (failbit s).

Definition open_stream (content : string) : istream := IStream content false false.

(** The sentry of an operation on a stream that is not [good] sets [failbit]
    and the operation does nothing else. *)
Definition refuse (s : istream) : istream := IStream (pending s) (eofbit s) true.

(** Characters before the first newline, what follows the newline, and
    whether a newline was met. *)
Fixpoint take_line (s : string) : string * string * bool :=
  match s with
  | EmptyString => (EmptyString, EmptyString, false)
  | String c r =>
      if Ascii.eqb c newline then (EmptyString, r, true)
      else let '(l, rest, d) := take_line r in (String c l, rest, d)
  end.

(** [std::getline (s, str)]: the delimiter is extracted and dropped; reaching
    the end of input sets [eofbit]; extracting nothing at all sets
    [failbit]; [str] is erased only once the sentry has succeeded. *)
Definition getline (s : istream) (str : string) : istream * string :=
  if good s then
    let '(line, rest, delim) := take_line (pending s) in
    if delim then (IStream rest false false, line)
    else (IStream EmptyString true
            (match line with EmptyString => true | _ => false end), line)
  else (refuse s, str).

(** [s.get (c)] *)
Definition get (s : istream) (c : ascii) : istream * ascii :=
  if good s then
    match pending s with
    | String a r => (IStream r false false, a)
    | EmptyString => (IStream EmptyString true true, c)
    end
  else (refuse s, c).

(** [s.seekg (ios::beg)] on a stream attached to a file whose bytes are
    [content]: [eofbit] is cleared first; a stream with [failbit] is not
    repositioned. *)
Definition seekg_beg (content : string) (s : istream) : istream :=
  if failbit s then IStream (pending s) false true
  else IStream content false false.

(** [s.read ((char * ) &obj, sizeof (float))] on a float object whose four
    bytes are [obj]: a short read stores the bytes that were available and
    sets [eofbit] and [failbit]. *)
Definition read_float (s : istream) (obj : Z) : istream * Z :=
  if good s then
    let chunk := stake 4 (pending s) in
    if (slength chunk =? 4)%nat then
      (IStream (sdrop 4 (pending s)) false false, bits_of_bytes chunk)
    else
      (IStream EmptyString true true,
       bits_of_bytes (chunk +:+ sdrop (slength chunk) (bytes_of_bits obj)))
  else (refuse s, obj).

(* ===================================================================== *)
(** ** Files, events and outcomes *)
(* ===================================================================== *)

(** The file system: the bytes of each existing file, and the paths that
    cannot be opened for writing. *)
Record FileSystem := FS { files : gmap string string; unwritable : gset string }.

Definition open_in (fs : FileSystem) (p : string) : option string := files fs !! p.

Definition bytes_at (fs : FileSystem) (p : string) : string :=
  default EmptyString (files fs !! p).

(** [ofstream f (p, ios::out)]: the file is created or truncated. *)
Definition open_out (fs : FileSystem) (p : string) : option FileSystem :=
  if decide (p ∈ unwritable fs) then None
  else Some (FS (<[p := EmptyString]> (files fs)) (unwritable fs)).

(** [f.close ()] of an output stream to which [data] was written. *)
Definition close_out (fs : FileSystem) (p : string) (data : string) : FileSystem :=
  FS (<[p := data]> (files fs)) (unwritable fs).

Inductive Message :=
  | Help
  | Banner (spectrum response output : string)
  | ErrNotNumber
  | ErrMinCoeffs
  | SplineCoefficients (ncoeffs : Z)
  | ErrHeaderData (hdr : string)
  | XGremlinVariables (wstart wstop delw : double) (npo : Z)
  | ErrOpenHeader (hdr : string)
  | Sample (xi yi : double)
  | ErrOpenResponse (response : string)
  | ErrTooFewPoints (response : string)
  | ConstructingSpline
  | FitReport
  | CalibratingSpectrum
  | Done
  | ErrWrite (dat : string)
  | ErrOpenSpectrum (dat : string).

Inductive Event :=
  | Print (m : Message)
  | OpenIn (path : string) (opened : bool)
  | OpenOut (path : string) (opened : bool)
  | Fit (ncoeffs nbreak : Z) (n : nat).

Inductive Outcome :=
  | Exit (status : Z)
                 (* main returns status, no undefined operation before it *)
  | Aborted      (* std::terminate, or the abort of the GSL error handler *)
  | Undefined    (* an undefined operation was executed: an out-of-range
                    conversion to int, an index out of bounds; any result
                    is possible from there, also a return from main *)
  | Diverged.    (* a loop that does not end *)

Definition Result : Type := Outcome * FileSystem * list Event.

Definition emit (evs : list Event) (r : Result) : Result :=
  let '(o, fs, tr) := r in (o, fs, evs ++ tr).

Definition outcome (r : Result) : Outcome := fst (fst r).
Definition final_fs (r : Result) : FileSystem := snd (fst r).
Definition trace (r : Result) : list Event := snd r.

(** What a call of a function with a [throw (int)] specification can do. *)
Inductive Try (A : Type) :=
  | Returned (a : A)
  | Thrown (code : Z)     (* throw (code) *)
  | Terminated            (* an exception outside the specification *)
  | Looping.              (* the loop does not end *)
Arguments Returned {A} a.
Arguments Thrown {A} code.
Arguments Terminated {A}.
Arguments Looping {A}.

(** Values of the variables that are read before the program assigns them. *)
Record Uninit := {
  u_ncoeffs : Z;
  u_ReturnValue : string -> double;
  u_xi : double;
  u_yi : double;
  u_floatyi : Z;
  u_NextByte : ascii
}.

(** Constants of the program. *)
Definition DEFAULT_NUM_COEFFS : Z := 200.
Definition REQUIRED_NUM_ARGS_MODE1 : nat := 4.
Definition REQUIRED_NUM_ARGS_MODE2 : nat := 5.
Definition ARG_SPECTRUM : nat := 1.
Definition ARG_RESPONSE : nat := 2.
Definition ARG_OUTPUT : nat := 3.
Definition ARG_COEFFS : nat := 4.
Definition XMIN_TAG : string := "wstart".
Definition XMAX_TAG : string := "wstop".
Definition DELTAX_TAG : string := "delw".
Definition NUM_PTS_TAG : string := "npo".
Definition SIZE_MAX : Z := 2 ^ 64 - 1.

Definition arg (argv : list string) (i : nat) : string := nth i argv EmptyString.

(* ===================================================================== *)
(** ** Command line *)
(* ===================================================================== *)

(** [is_numeric]: every character is alphanumeric and not a letter. *)
Fixpoint is_numeric (a : string) : bool :=
  match a with
  | EmptyString => true
  | String c r => if negb (isalnum c) || isalpha c then false else is_numeric r
  end.

Fixpoint digits_value (s : string) (acc : Z) : Z :=
  match s with
  | String c r => if isdigit c then digits_value r (10 * acc + (code c - 48)) else acc
  | EmptyString => acc
  end.

(** [iss.str (a); iss >> ncoeffs;] for a [size_t] holding [old], on the
    strings [is_numeric] lets through (decimal digits only): nothing to read
    leaves the variable alone, a value too large is stored as the maximum. *)
Definition read_size_t (a : string) (old : Z) : Z :=
  match a with
  | EmptyString => old
  | _ => Z.min (digits_value a 0) SIZE_MAX
  end.

(** [getNumCoefficients]: the value returned and what is printed. *)
Definition getNumCoefficients (argv : list string) (ncoeffs0 : Z) : Z * list Event :=
  if (length argv =? REQUIRED_NUM_ARGS_MODE1)%nat then
    (DEFAULT_NUM_COEFFS, [Print (SplineCoefficients DEFAULT_NUM_COEFFS)])
  else if is_numeric (arg argv ARG_COEFFS) then
    let ncoeffs := read_size_t (arg argv ARG_COEFFS) ncoeffs0 in
    if ncoeffs <? 4 then (1, [Print ErrMinCoeffs])
    else (ncoeffs, [Print (SplineCoefficients ncoeffs)])
  else (1, [Print ErrNotNumber]).

(* ===================================================================== *)
(** ** A decimal conversion for the examples *)
(* ===================================================================== *)

(** The conversion of the C++ runtime is a parameter of the program model
    below.  For closed examples this stand-in reads an optional sign, digits
    and an optional fraction, and divides the two integers in double
    precision: correctly rounded for numerals of up to 15 digits, which is
    all the examples use. *)
Module Decimal.
Fixpoint span_digits (s : string) (acc : Z) (count : nat) : Z * nat * string :=
  match s with
  | String c r =>
      if isdigit c then span_digits r (10 * acc + (code c - 48)) (S count)
      else (acc, count, s)
  | EmptyString => (acc, count, s)
  end.

Definition unsigned (s : string) : option (Z * Z * string) :=
  let '(ip, ni, r) := span_digits s 0 O in
  match r with
  | String "." r' =>
      let '(m, nf, r'') := span_digits r' ip O in
      if (ni + nf =? 0)%nat then None else Some (m, 10 ^ Z.of_nat nf, r'')
  | _ => if (ni =? 0)%nat then None else Some (ip, 1, r)
  end.

Definition ratio (neg : bool) (m d : Z) : double :=
  let q := SFdiv D.prec D.emax (D.of_int m) (D.of_int d) in
  if neg then SFopp q else q.

Definition num_get (s : string) : option (double * string) :=
  match s with
  | String "-" r => match unsigned r with
                    | Some (m, d, rest) => Some (ratio true m d, rest)
                    | None => None
                    end
  | String "+" r => match unsigned r with
                    | Some (m, d, rest) => Some (ratio false m d, rest)
                    | None => None
                    end
  | _ => match unsigned s with
         | Some (m, d, rest) => Some (ratio false m d, rest)
         | None => None
         end
  end.
End Decimal.

(* ===================================================================== *)
(** ** Sample inputs *)
(* ===================================================================== *)

Module Sample.
(** Stand-ins for the GSL: a fit that always succeeds, an estimate that is
    2 everywhere with standard error 0 or 1. *)
Definition fit (ncoeffs nbreak : Z) (n : nat) (xs ys : list double)
    (xmin xmax : double) : option unit := Some tt.
Definition est (m : unit) (x : double) : double * double :=
  (D.of_int 2, D.of_int 0).

Definition uninit : Uninit :=
  {| u_ncoeffs := 7; u_ReturnValue := fun _ => D.of_int 5;
     u_xi := D.of_int 8; u_yi := D.of_int 9;
     u_floatyi := 1065353216; u_NextByte := "?"%char |}.

(** A grid of three points 100, 101, 102. *)
Definition id_line : string := "id      = sample".
Definition wstart_line : string :=
  "wstart  =       100.0000000000 / first wavenumber".
Definition npo_line : string :=
  "npo     =                3     / number of points".
Definition middle_lines : string :=
  "wstop   =       102.0000000000 / last wavenumber
delw    =         1.0000000000 / dispersion
".
Definition header : string :=
  id_line +:+ String newline (wstart_line +:+ String newline
    (middle_lines +:+ npo_line +:+ String newline EmptyString)).

(** The same header without the newline of its last line. *)
Definition header_cut : string :=
  id_line +:+ String newline (wstart_line +:+ String newline
    (middle_lines +:+ npo_line)).

(** A value written right-justified in columns 10 to 32. *)
Definition wide_line : string := "npo     =" +:+ "                 1234567".

(** Five response samples on [[101, 105]]. *)
Definition response : string :=
  "101 2
102 2
103 2
104 2
105 2
".

(** Three floats: 1.0, 3.0, 5.0. *)
Definition spectrum : string :=
  bytes_of_bits 1065353216 +:+ bytes_of_bits 1077936128
    +:+ bytes_of_bits 1084227584.

Definition disk (resp : string) : FileSystem :=
  FS (<["spec.hdr" := header]> (<["spec.dat" := spectrum]> (<["resp" := resp]> ∅))) ∅.

Definition locked_disk : FileSystem :=
  FS (files (disk response)) {["out.hdr"]}.

Definition argv : list string := ["ftsintensity"; "spec"; "resp"; "out"; "4"].
Definition argv_default : list string := ["ftsintensity"; "spec"; "resp"; "out"].
Definition argv_in_place : list string := ["ftsintensity"; "spec"; "resp"; "spec"; "4"].
End Sample.

(** More sample inputs. *)
Module Sample2.
Definition wstop_line : string :=
  "wstop   =       102.0000000000 / last wavenumber".
Definition delw_line : string :=
  "delw    =         1.0000000000 / dispersion".

(** A header without the [delw] line. *)
Definition header_no_delw : string :=
  Sample.id_line +:+ String newline (Sample.wstart_line +:+ String newline
    (wstop_line +:+ String newline (Sample.npo_line +:+ String newline EmptyString))).

(** Lines that name [npo] without a usable value. *)
Definition short_line : string := "npo = 3".
Definition blank_value_line : string :=
  "npo     =" +:+ "                       / number of points".
Definition text_value_line : string := "npo     = many".

(** Responses: three samples only; five samples in descending order. *)
Definition response_three : string :=
  "101 2
102 2
103 2
".
Definition response_descending : string :=
  "105 2
104 2
103 2
102 2
101 2
".

(** A spectrum of one record, 3.0. *)
Definition spectrum_one : string := bytes_of_bits 1077936128.

Definition disk (hdr resp spec : string) : FileSystem :=
  FS (<["spec.hdr" := hdr]> (<["spec.dat" := spec]> (<["resp" := resp]> ∅))) ∅.

(** A disk without the response file. *)
Definition disk_no_response : FileSystem :=
  FS (<["spec.hdr" := Sample.header]> (<["spec.dat" := Sample.spectrum]> ∅)) ∅.

(** A spectrum of seven bytes: the record 1.0 and the first three bytes of
    the record 3.0. *)
Definition spectrum_seven : string :=
  bytes_of_bits 1065353216 +:+ stake 3 (bytes_of_bits 1077936128).


(** A disk without the spectrum data. *)
Definition disk_no_spectrum : FileSystem :=
  FS (<["spec.hdr" := Sample.header]> (<["resp" := Sample.response]> ∅)) ∅.
End Sample2.

(* ===================================================================== *)
(** ** The program *)
(* ===================================================================== *)

Section Program.

(** The conversion behind [operator>> (double &)]: given input that starts
    with a character that is not white space, the value of the longest
    numeral at its start and the input after it, or [None]. *)
Variable num_get : string -> option (double * string).

(** The GSL calls of lines 250-295 taken together (allocation, uniform
    knots on [[xmin, xmax]], design matrix, weighted least squares): the
    fitted model, or [None] when the GSL error handler aborts.  Where in
    these calls it aborts is not modelled, only that the run ends there. *)
Variable SplineFit : Type.
Variable gsl_fit :
  Z -> Z -> nat -> list double -> list double -> double -> double -> option SplineFit.

(** [gsl_bspline_eval] followed by [gsl_multifit_linear_est] (lines
    307-308): the estimate [ySpline] and its standard error [yerr]. *)
Variable gsl_est : SplineFit -> double -> double * double.

(** [iss >> v] for a double holding [old].  The string stream is [None]
    once an extraction has failed, else its unread characters.  With
    nothing but white space left the variable keeps its value; a failed
    conversion stores zero. *)
Definition extract_double (iss : option string) (old : double)
  : option string * double :=
  match iss with
  | None => (None, old)
  | Some s =>
      match skipws s with
      | EmptyString => (None, old)
      | t => match num_get t with
             | Some (v, rest) => (Some rest, v)
             | None => (None, D.zero)
             end
      end
  end.

(** *** Grid metadata reader (lines 127-151) *)

(** The [do ... while] loop of [getXGremlinHeaderField]; [None] when the
    fuel runs out. *)
Fixpoint scan_header (fuel : nat) (Header : istream)
    (FieldName LineString NextField : string)
  : option (istream * string * string) :=
  match fuel with
  | O => None
  | S fuel' =>
      let '(Header, LineString) := getline Header LineString in
      let NextField := first_token LineString NextField in
      if negb (String.eqb NextField FieldName) && negb (eofbit Header)
      then scan_header fuel' Header FieldName LineString NextField
      else Some (Header, LineString, NextField)
  end.

(** [file] holds the bytes of the file [Header] is attached to. *)
Definition getXGremlinHeaderField (file : string) (Header : istream)
    (FieldName : string) (ReturnValue : double) : istream * Try double :=
  let Header := seekg_beg file Header in
  match scan_header (S (slength (pending Header))) Header FieldName
          EmptyString EmptyString with
  | None => (Header, Looping)
  | Some (Header, LineString, _) =>
      if negb (eofbit Header) then
        match substr LineString 9 23 with
        | None => (Header, Terminated)
        | Some field =>
            (Header, Returned (snd (extract_double (Some field) ReturnValue)))
        end
      else (Header, Thrown 1)
  end.

Record GridMetadata := Grid {
  wstart : double; wstop : double; delw : double; numPts : option Z
}.

(** The [try] block of lines 203-206; [numPts] is [None] when the cast to
    [int] is undefined. *)
Definition read_grid (file : string) (header : istream) (u : Uninit)
  : istream * Try GridMetadata :=
  match getXGremlinHeaderField file header XMIN_TAG (u_ReturnValue u XMIN_TAG) with
  | (header, Returned wstart) =>
    match getXGremlinHeaderField file header XMAX_TAG (u_ReturnValue u XMAX_TAG) with
    | (header, Returned wstop) =>
      match getXGremlinHeaderField file header DELTAX_TAG (u_ReturnValue u DELTAX_TAG) with
      | (header, Returned delw) =>
        match getXGremlinHeaderField file header NUM_PTS_TAG (u_ReturnValue u NUM_PTS_TAG) with
        | (header, Returned npo) =>
            (header, Returned (Grid wstart wstop delw (double_to_int npo)))
        | (header, Thrown c) => (header, Thrown c)
        | (header, Terminated) => (header, Terminated)
        | (header, Looping) => (header, Looping)
        end
      | (header, Thrown c) => (header, Thrown c)
      | (header, Terminated) => (header, Terminated)
      | (header, Looping) => (header, Looping)
      end
    | (header, Thrown c) => (header, Thrown c)
    | (header, Terminated) => (header, Terminated)
    | (header, Looping) => (header, Looping)
    end
  | (header, Thrown c) => (header, Thrown c)
  | (header, Terminated) => (header, Terminated)
  | (header, Looping) => (header, Looping)
  end.

(** *** Response sample loader (lines 221-233) *)

Record Response := Loaded {
  n : nat; xVec : list double; yVec : list double; printed : list Event
}.

(** The [while (!calData.eof ())] loop; [None] when the fuel runs out. *)
Fixpoint load_loop (fuel : nat) (calData : istream) (LineString : string)
    (xi yi : double) (r : Response) : option Response :=
  match fuel with
  | O => None
  | S fuel' =>
      if eofbit calData then Some r
      else
        let '(iss, xi) := extract_double (Some LineString) xi in
        let '(_, yi) := extract_double iss yi in
        let r := Loaded (S (n r)) (xVec r ++ [xi]) (yVec r ++ [yi])
                        (printed r ++ [Print (Sample xi yi)]) in
        let '(calData, LineString) := getline calData LineString in
        load_loop fuel' calData LineString xi yi r
  end.

Definition load_response (content : string) (u : Uninit) : option Response :=
  let '(calData, LineString) := getline (open_stream content) EmptyString in
  load_loop (S (slength content)) calData LineString (u_xi u) (u_yi u)
            (Loaded O [] [] []).

(** *** Calibration loop (lines 302-318) *)

Definition query (g : GridMetadata) (i : Z) : double :=
  D.add (D.mul (D.of_int i) (delw g)) (wstart g).

Definition in_domain (g : GridMetadata) (xmin xmax : double) (i : Z) : bool :=
  D.geb (query g i) xmin && D.leb (query g i) xmax.

(** The value assigned to [yCal] at index [i], from the bytes of [floatyi]. *)
Definition yCal (g : GridMetadata) (xmin xmax : double) (m : SplineFit)
    (i : Z) (floatyi : Z) : float :=
  if in_domain g xmin xmax i then
    let '(ySpline, yerr) := gsl_est m (query g i) in
    F.div (F.of_bits floatyi) (F.of_double ySpline)
  else F.zero.

(** [k] iterations from index [i]; [calSpectrum] is what was written so far. *)
Fixpoint calibrate (g : GridMetadata) (xmin xmax : double) (m : SplineFit)
    (k : nat) (i : Z) (spectrum : istream) (floatyi : Z) (calSpectrum : string)
  : string :=
  match k with
  | O => calSpectrum
  | S k' =>
      let '(spectrum, floatyi) := read_float spectrum floatyi in
      let record := bytes_of_bits (F.to_bits (yCal g xmin xmax m i floatyi)) in
      calibrate g xmin xmax m k' (i + 1) spectrum floatyi (calSpectrum +:+ record)
  end.

(** *** Header copy (lines 335-339) *)

Fixpoint copy_loop (fuel : nat) (header : istream) (NextByte : ascii)
    (calHeader : string) : option string :=
  match fuel with
  | O => None
  | S fuel' =>
      if eofbit header then Some calHeader
      else
        let calHeader := calHeader +:+ String NextByte EmptyString in
        let '(header, NextByte) := get header NextByte in
        copy_loop fuel' header NextByte calHeader
  end.

Definition copy_header (header : istream) (NextByte : ascii) : option string :=
  let '(header', NextByte) := get header NextByte in
  copy_loop (S (slength (pending header))) header' NextByte EmptyString.

(** *** [main], from its last stage to its first *)

Definition SpectrumDAT (argv : list string) : string := arg argv ARG_SPECTRUM +:+ ".dat".
Definition SpectrumHDR (argv : list string) : string := arg argv ARG_SPECTRUM +:+ ".hdr".
Definition CalDAT (argv : list string) : string := arg argv ARG_OUTPUT +:+ ".dat".
Definition CalHDR (argv : list string) : string := arg argv ARG_OUTPUT +:+ ".hdr".

(** Lines 331-354.  The output stream is not tested: when it could not be
    opened the [put]s are lost.  [seekg] drops what the input stream had
    buffered, so the bytes copied are those of the header file as it is
    after [CalHDR] was opened. *)
Definition header_stage (argv : list string) (fs : FileSystem) (u : Uninit)
    (header : istream) : Result :=
  let calHeader := open_out fs (CalHDR argv) in
  let fs' := default fs calHeader in
  let header := seekg_beg (bytes_at fs' (SpectrumHDR argv)) header in
  match copy_header header (u_NextByte u) with
  | None => (Diverged, fs', [OpenOut (CalHDR argv) (bool_decide (is_Some calHeader))])
  | Some copied =>
      (Exit 0,
       match calHeader with
       | Some _ => close_out fs' (CalHDR argv) copied
       | None => fs'
       end,
       [OpenOut (CalHDR argv) (bool_decide (is_Some calHeader))])
  end.

(** Lines 297-329.  [spectrum] was opened at line 194 and is first read in
    the loop, after [CalDAT] was truncated. *)
Definition calibration_stage (argv : list string) (fs : FileSystem) (u : Uninit)
    (header : istream) (spectrum : option string) (g : GridMetadata) (pts : Z)
    (xmin xmax : double) (m : SplineFit) : Result :=
  match spectrum with
  | None => (Exit 1, fs, [Print (ErrOpenSpectrum (SpectrumDAT argv))])
  | Some _ =>
      match open_out fs (CalDAT argv) with
      | None => (Exit 1, fs, [OpenOut (CalDAT argv) false;
                              Print (ErrWrite (CalDAT argv))])
      | Some fs' =>
          let written :=
            calibrate g xmin xmax m (Z.to_nat pts) 0
              (open_stream (bytes_at fs' (SpectrumDAT argv)))
              (u_floatyi u) EmptyString in
          emit [OpenOut (CalDAT argv) true; Print CalibratingSpectrum; Print Done]
            (header_stage argv (close_out fs' (CalDAT argv) written) u header)
      end
  end.

(** Lines 239-295. *)
Definition fit_stage (argv : list string) (fs : FileSystem) (u : Uninit)
    (header : istream) (spectrum : option string) (g : GridMetadata) (pts : Z)
    (ncoeffs nbreak : Z) (r : Response) : Result :=
  match xVec r !! O,
        xVec r !! Z.to_nat ((Z.of_nat (length (xVec r)) - 1) mod 2 ^ 64) with
  (* xmin = xVec[0]; xmax = xVec[xVec.size () - 1]; *)
  | Some xmin, Some xmax =>
      if Z.of_nat (n r) <=? ncoeffs then
        (Exit 1, fs, [Print (ErrTooFewPoints (arg argv ARG_RESPONSE))])
      else
        match gsl_fit ncoeffs nbreak (n r) (xVec r) (yVec r) xmin xmax with
        | None => (Aborted, fs, [Fit ncoeffs nbreak (n r)])
        | Some m =>
            emit [Fit ncoeffs nbreak (n r); Print ConstructingSpline; Print FitReport]
              (calibration_stage argv fs u header spectrum g pts xmin xmax m)
        end
  | _, _ => (Undefined, fs, [])
  end.

(** Lines 218-238. *)
Definition response_stage (argv : list string) (fs : FileSystem) (u : Uninit)
    (header : istream) (spectrum : option string) (g : GridMetadata) (pts : Z)
    (ncoeffs nbreak : Z) : Result :=
  match open_in fs (arg argv ARG_RESPONSE) with
  | None => (Exit 1, fs, [OpenIn (arg argv ARG_RESPONSE) false;
                          Print (ErrOpenResponse (arg argv ARG_RESPONSE))])
  | Some content =>
      match load_response content u with
      | None => (Diverged, fs, [OpenIn (arg argv ARG_RESPONSE) true])
      | Some r =>
          emit (OpenIn (arg argv ARG_RESPONSE) true :: printed r)
            (fit_stage argv fs u header spectrum g pts ncoeffs nbreak r)
      end
  end.

(** Lines 199-216. *)
Definition metadata_stage (argv : list string) (fs : FileSystem) (u : Uninit)
    (spectrum : option string) (ncoeffs nbreak : Z) : Result :=
  match open_in fs (SpectrumHDR argv) with
  | None => (Exit 1, fs, [OpenIn (SpectrumHDR argv) false;
                          Print (ErrOpenHeader (SpectrumHDR argv))])
  | Some file =>
      emit [OpenIn (SpectrumHDR argv) true]
        match read_grid file (open_stream file) u with
        | (header, Returned g) =>
            match numPts g with
            | None => (Undefined, fs, [])
            | Some pts =>
                emit [Print (XGremlinVariables (wstart g) (wstop g) (delw g) pts)]
                  (response_stage argv fs u header spectrum g pts ncoeffs nbreak)
            end
        | (_, Thrown _) => (Exit 1, fs, [Print (ErrHeaderData (SpectrumHDR argv))])
        | (_, Terminated) => (Aborted, fs, [])
        | (_, Looping) => (Diverged, fs, [])
        end
  end.

(** Lines 156-196.  [argv] is the whole argument vector, program name
    first; [argc] is its length. *)
Definition main (argv : list string) (fs : FileSystem) (u : Uninit) : Result :=
  if negb (length argv =? REQUIRED_NUM_ARGS_MODE1)%nat
     && negb (length argv =? REQUIRED_NUM_ARGS_MODE2)%nat
  then (Exit 1, fs, [Print Help])
  else
    emit [Print (Banner (arg argv ARG_SPECTRUM) (arg argv ARG_RESPONSE)
                        (arg argv ARG_OUTPUT))]
      (let '(ncoeffs, said) := getNumCoefficients argv (u_ncoeffs u) in
       let nbreak := (ncoeffs - 2) mod 2 ^ 64 in
       let spectrum := open_in fs (SpectrumDAT argv) in
       emit (said ++ [OpenIn (SpectrumDAT argv) (bool_decide (is_Some spectrum))])
         (metadata_stage argv fs u spectrum ncoeffs nbreak)).


(** *** Vocabulary of the statements *)

Definition no_newline (l : string) : bool :=
  sall (fun c => negb (Ascii.eqb c newline)) l.

(** A file made of newline-terminated lines. *)
Fixpoint unlines (ls : list string) : string :=
  match ls with
  | [] => EmptyString
  | l :: ls' => l +:+ String newline (unlines ls')
  end.

(** Columns [from] to [to] of a line, counted from 0, both included. *)
Definition columns (from to : nat) (line : string) : string :=
  stake (S to - from) (sdrop from line).

(** The line holds two numerals [x] and [y], white space before each. *)
Definition holds_pair (l : string) (x y : double) : Prop :=
  exists c1 t1 r1 c2 t2 r2,
    skipws l = String c1 t1 /\ num_get (String c1 t1) = Some (x, r1) /\
    skipws r1 = String c2 t2 /\ num_get (String c2 t2) = Some (y, r2).

(** Record [i] of a file of 4-byte records. *)
Definition record (i : Z) (data : string) : option string :=
  let r := stake 4 (sdrop (4 * Z.to_nat i) data) in
  if (slength r =? 4)%nat then Some r else None.

Definition zero_record : string := bytes_of_bits 0.

(** [v[0]] and [v[v.size () - 1]], [None] out of bounds. *)
Definition front (v : list double) : option double := v !! O.
Definition back (v : list double) : option double :=
  v !! Z.to_nat ((Z.of_nat (length v) - 1) mod 2 ^ 64).

(** A line of the response file with the two numbers it holds. *)
Record Row := { row_text : string; row_x : double; row_y : double }.

Definition well_formed_row (w : Row) : Prop :=
  no_newline (row_text w) = true /\ holds_pair (row_text w) (row_x w) (row_y w).

(** The line printed when the row is loaded. *)
Definition sample_of (w : Row) : Event := Print (Sample (row_x w) (row_y w)).

(** What [main] has read when it succeeds: the grid metadata, the response
    samples, the number of coefficients. *)
Definition grid_read (argv : list string) (fs : FileSystem) (u : Uninit)
  : option GridMetadata :=
  match open_in fs (SpectrumHDR argv) with
  | Some file =>
      match snd (read_grid file (open_stream file) u) with
      | Returned g => Some g
      | _ => None
      end
  | None => None
  end.

Definition response_loaded (argv : list string) (fs : FileSystem) (u : Uninit)
  : option Response :=
  match open_in fs (arg argv ARG_RESPONSE) with
  | Some content => load_response content u
  | None => None
  end.

Definition coefficients (argv : list string) (u : Uninit) : Z :=
  fst (getNumCoefficients argv (u_ncoeffs u)).

(** The value of [floatyi] after the read of iteration [j] of the
    calibration loop. *)
Fixpoint floatyi_at (j : nat) (spectrum : istream) (floatyi : Z) : Z :=
  match j with
  | O => snd (read_float spectrum floatyi)
  | S j' => let '(spectrum, floatyi) := read_float spectrum floatyi in
            floatyi_at j' spectrum floatyi
  end.

(** The value [floatyi] keeps once the measured spectrum [data] has no whole
    record left: the last whole record (the first value of [floatyi] when
    there is none), its first bytes replaced by the one to three bytes that
    are left over at the end of the file, if any. *)
Definition last_read (data : string) (floatyi : Z) : Z :=
  let k := (slength data / 4)%nat in
  let whole :=
    match k with
    | O => floatyi
    | S k' => bits_of_bytes (stake 4 (sdrop (4 * k') data))
    end in
  let rest := sdrop (4 * k) data in
  bits_of_bytes (rest +:+ sdrop (slength rest) (bytes_of_bits whole)).

(** [rec] is an object representation of the float [f]: the four bytes of
    its binary32 encoding, least significant first; for a NaN, any four
    bytes that are the encoding of a NaN. *)
Definition represents (rec : string) (f : float) : Prop :=
  match f with
  | S754_nan => slength rec = 4%nat /\ F.of_bits (bits_of_bytes rec) = S754_nan
  | _ => rec = bytes_of_bits (F.to_bits f)
  end.

(** One lookup of a header field, from a stream just opened on the file. *)
Definition lookup_field (file : string) (u : Uninit) (tag : string) : Try double :=
  snd (getXGremlinHeaderField file (open_stream file) tag (u_ReturnValue u tag)).

(** Sequencing of calls that may throw. *)
Definition and_then {A B : Type} (t : Try A) (k : A -> Try B) : Try B :=
  match t with
  | Returned a => k a
  | Thrown c => Thrown c
  | Terminated => Terminated
  | Looping => Looping
  end.

(** A line of a response file: two numbers, or nothing but white space. *)
Inductive ResponseLine :=
  | DataLine (w : Row)
  | BlankLine (text : string).

Definition line_text (l : ResponseLine) : string :=
  match l with
  | DataLine w => row_text w
  | BlankLine text => text
  end.

Definition well_formed_line (l : ResponseLine) : Prop :=
  match l with
  | DataLine w => well_formed_row w
  | BlankLine text => no_newline text = true /\ skipws text = EmptyString
  end.

(** The pairs such lines add when [xi] and [yi] hold the given values: a
    data line its own pair, a blank line the pair that came before. *)
Fixpoint pushed (xi yi : double) (ls : list ResponseLine) : list (double * double) :=
  match ls with
  | [] => []
  | DataLine w :: ls' => (row_x w, row_y w) :: pushed (row_x w) (row_y w) ls'
  | BlankLine _ :: ls' => (xi, yi) :: pushed xi yi ls'
  end.

Definition sample_event (p : double * double) : Event := Print (Sample (fst p) (snd p)).

(** Number of newline characters. *)
Fixpoint newlines (s : string) : nat :=
  match s with
  | EmptyString => O
  | String c r => if Ascii.eqb c newline then S (newlines r) else newlines r
  end.

(** The events that are calls of the GSL fit. *)
Definition is_fit (e : Event) : bool :=
  match e with
  | Fit _ _ _ => true
  | _ => false
  end.

(** A header line that does not name the field. *)
Definition other_line (FieldName l : string) : Prop :=
  no_newline l = true /\ first_token l EmptyString <> FieldName.

(* =================================================================== *)
(** ** Strings and streams *)
(* =================================================================== *)

Lemma append_nil (b : string) : EmptyString +:+ b = b.
Proof. reflexivity. Qed.

Lemma append_cons (c : ascii) (a b : string) :
  String c a +:+ b = String c (a +:+ b).
Proof. reflexivity. Qed.

Ltac push_append := rewrite ?append_nil, ?append_cons.

Lemma append_empty_r (s : string) : s +:+ EmptyString = s.
Proof.
  induction s as [|c s IH]; push_append; [reflexivity | now rewrite IH].
Qed.

Lemma append_assoc (a b c : string) : (a +:+ b) +:+ c = a +:+ (b +:+ c).
Proof.
  induction a as [|x a IH]; push_append; [reflexivity | now rewrite IH].
Qed.

Lemma slength_append (a b : string) :
  slength (a +:+ b) = (slength a + slength b)%nat.
Proof.
  induction a as [|x a IH]; push_append; simpl; [reflexivity | now rewrite IH].
Qed.

Lemma append_inj_l (a b c : string) : a +:+ b = a +:+ c -> b = c.
Proof.
  induction a as [|x a IH]; push_append; intros H; [exact H |].
  injection H as H. auto.
Qed.

Lemma sdrop_append (a b : string) : sdrop (slength a) (a +:+ b) = b.
Proof.
  induction a as [|x a IH]; push_append; simpl; [reflexivity | exact IH].
Qed.

Lemma sdrop_append_lt (k : nat) (a b : string) :
  (k <= slength a)%nat -> sdrop k (a +:+ b) = sdrop k a +:+ b.
Proof.
  revert a. induction k as [|k IH]; intros a Hk; [reflexivity |].
  destruct a as [|x a]; push_append; simpl in *; [lia |]. apply IH. lia.
Qed.

Lemma stake_append (a b : string) : stake (slength a) (a +:+ b) = a.
Proof.
  induction a as [|x a IH]; push_append; simpl; [reflexivity | now rewrite IH].
Qed.

Lemma stake_all (k : nat) (a : string) : (slength a <= k)%nat -> stake k a = a.
Proof.
  revert a. induction k as [|k IH]; intros [|x a] H; simpl in *;
    try reflexivity; try lia.
  rewrite IH; [reflexivity | lia].
Qed.

Lemma slength_stake (k : nat) (a : string) :
  slength (stake k a) = Nat.min k (slength a).
Proof.
  revert a. induction k as [|k IH]; intros [|x a]; simpl; try reflexivity.
  now rewrite IH.
Qed.

Lemma slength_sdrop (k : nat) (a : string) :
  slength (sdrop k a) = (slength a - k)%nat.
Proof.
  revert a. induction k as [|k IH]; intros [|x a]; simpl; try reflexivity.
  apply IH.
Qed.

Lemma sdrop_sdrop (j k : nat) (a : string) :
  sdrop j (sdrop k a) = sdrop (k + j) a.
Proof.
  revert a. induction k as [|k IH]; intros a; [reflexivity |].
  destruct a as [|x a]; simpl; [now destruct j | apply IH].
Qed.

Lemma slength_bytes_of_bits (b : Z) : slength (bytes_of_bits b) = 4%nat.
Proof. reflexivity. Qed.

Lemma take_line_terminated (l rest : string) :
  no_newline l = true ->
  take_line (l +:+ String newline rest) = (l, rest, true).
Proof.
  induction l as [|c l IH]; push_append; simpl; intros H.
  - reflexivity.
  - apply andb_true_iff in H as [Hc Hl]. apply negb_true_iff in Hc.
    rewrite Hc, (IH Hl). reflexivity.
Qed.

Lemma take_line_unterminated (l : string) :
  no_newline l = true -> take_line l = (l, EmptyString, false).
Proof.
  induction l as [|c l IH]; simpl; intros H.
  - reflexivity.
  - apply andb_true_iff in H as [Hc Hl]. apply negb_true_iff in Hc.
    rewrite Hc, (IH Hl). reflexivity.
Qed.

Lemma getline_terminated (l rest str : string) :
  no_newline l = true ->
  getline (open_stream (l +:+ String newline rest)) str = (open_stream rest, l).
Proof.
  intros H. unfold getline, open_stream. simpl.
  rewrite (take_line_terminated _ _ H). reflexivity.
Qed.

Lemma getline_unterminated (l str : string) :
  no_newline l = true ->
  getline (open_stream l) str
  = (IStream EmptyString true
       (match l with EmptyString => true | _ => false end), l).
Proof.
  intros H. unfold getline, open_stream. simpl.
  rewrite (take_line_unterminated _ H). reflexivity.
Qed.

Lemma slength_unlines (ls : list string) (rest : string) :
  (length ls <= slength (unlines ls +:+ rest))%nat.
Proof.
  induction ls as [|l ls IH]; simpl; [lia |].
  rewrite append_assoc, slength_append. push_append. simpl. lia.
Qed.

Lemma first_token_cases (l old : string) :
  (skipws l = EmptyString /\ first_token l old = old) \/
  (skipws l <> EmptyString /\ first_token l old = first_token l EmptyString).
Proof.
  unfold first_token. destruct (skipws l); [left | right]; split;
    congruence.
Qed.

Lemma first_token_other (FieldName l old : string) :
  old <> FieldName -> first_token l EmptyString <> FieldName ->
  first_token l old <> FieldName.
Proof.
  intros Ho Hl. destruct (first_token_cases l old) as [[_ ->] | [_ ->]];
    assumption.
Qed.

Lemma first_token_named (FieldName l old : string) :
  FieldName <> EmptyString -> first_token l EmptyString = FieldName ->
  first_token l old = FieldName.
Proof.
  intros Hne Hl. destruct (first_token_cases l old) as [[Hb _] | [_ ->]];
    [| assumption].
  unfold first_token in Hl. rewrite Hb in Hl. congruence.
Qed.

(* =================================================================== *)
(** ** Grid metadata reader *)
(* =================================================================== *)

Lemma seekg_beg_usable (file : string) (Header : istream) :
  failbit Header = false -> seekg_beg file Header = open_stream file.
Proof. intros H. unfold seekg_beg. now rewrite H. Qed.

(** Lines that do not name the field are read and passed over. *)
Lemma scan_header_skips (FieldName : string) (pre : list string) :
  Forall (other_line FieldName) pre ->
  forall (fuel : nat) (rest LineString NextField : string),
    NextField <> FieldName ->
    exists L N,
      N <> FieldName /\
      scan_header (length pre + fuel) (open_stream (unlines pre +:+ rest))
        FieldName LineString NextField
      = scan_header fuel (open_stream rest) FieldName L N.
Proof.
  induction 1 as [|l pre [Hnl Hl] _ IH]; intros fuel rest LineString NextField Hne.
  - exists LineString, NextField. split; [assumption | reflexivity].
  - assert (Hne' : first_token l NextField <> FieldName)
      by (apply first_token_other; assumption).
    destruct (IH fuel rest l (first_token l NextField) Hne') as (L & N & HN & Heq).
    exists L, N. split; [assumption |].
    rewrite <- Heq. simpl unlines. rewrite append_assoc, append_cons.
    simpl length. simpl Nat.add. simpl scan_header.
    rewrite (getline_terminated _ _ _ Hnl).
    apply String.eqb_neq in Hne'. rewrite Hne'. reflexivity.
Qed.

Lemma scan_fuel (pre : list string) (rest : string) :
  S (slength (unlines pre +:+ rest))
  = (length pre + S (slength (unlines pre +:+ rest) - length pre))%nat.
Proof. pose proof (slength_unlines pre rest). lia. Qed.

(** The scan stops on the first line that names the field, with that line
    in [LineString] and the stream still usable. *)
Lemma scan_header_finds (FieldName : string) (pre : list string)
    (line post : string) :
  FieldName <> EmptyString ->
  Forall (other_line FieldName) pre ->
  no_newline line = true ->
  first_token line EmptyString = FieldName ->
  scan_header (S (slength (unlines pre +:+ line +:+ String newline post)))
    (open_stream (unlines pre +:+ line +:+ String newline post))
    FieldName EmptyString EmptyString
  = Some (open_stream post, line, FieldName).
Proof.
  intros Hne Hpre Hnl Hline.
  rewrite scan_fuel.
  destruct (scan_header_skips FieldName pre Hpre
              (S (slength (unlines pre +:+ line +:+ String newline post) - length pre))
              (line +:+ String newline post) EmptyString EmptyString)
    as (L & N & HN & ->); [congruence |].
  simpl scan_header. rewrite (getline_terminated _ _ _ Hnl).
  rewrite (first_token_named FieldName line N Hne Hline).
  rewrite String.eqb_refl. reflexivity.
Qed.

(** When the line that names the field is the last one and has no newline,
    the scan stops on it with [eofbit] set. *)
Lemma scan_header_last (FieldName : string) (pre : list string) (line : string) :
  FieldName <> EmptyString ->
  Forall (other_line FieldName) pre ->
  no_newline line = true ->
  first_token line EmptyString = FieldName ->
  scan_header (S (slength (unlines pre +:+ line)))
    (open_stream (unlines pre +:+ line)) FieldName EmptyString EmptyString
  = Some (IStream EmptyString true false, line, FieldName).
Proof.
  intros Hne Hpre Hnl Hline.
  rewrite scan_fuel.
  destruct (scan_header_skips FieldName pre Hpre
              (S (slength (unlines pre +:+ line) - length pre))
              line EmptyString EmptyString)
    as (L & N & HN & ->); [congruence |].
  simpl scan_header. rewrite (getline_unterminated _ _ Hnl).
  rewrite (first_token_named FieldName line N Hne Hline).
  rewrite String.eqb_refl. simpl.
  destruct line; [| reflexivity].
  unfold first_token in Hline. simpl in Hline. congruence.
Qed.

(** C2 (as amended).  On the first line whose first token is the requested
    field name, when that line ends with a newline and has at least nine
    characters, [getXGremlinHeaderField] returns the number read from
    columns 9 to 31 of the line, counted from 0. *)
Theorem getXGremlinHeaderField_columns_9_31
    (FieldName : string) (pre : list string) (line post : string)
    (Header : istream) (ReturnValue v : double)
    (c : ascii) (t rest : string) :
  FieldName <> EmptyString ->
  Forall (other_line FieldName) pre ->
  no_newline line = true ->
  first_token line EmptyString = FieldName ->
  failbit Header = false ->
  (9 <= slength line)%nat ->
  skipws (columns 9 31 line) = String c t ->
  num_get (String c t) = Some (v, rest) ->
  snd (getXGremlinHeaderField (unlines pre +:+ line +:+ String newline post)
         Header FieldName ReturnValue)
  = Returned v.
Proof.
  intros Hne Hpre Hnl Hline Hfail Hlen Hcols Hnum.
  unfold getXGremlinHeaderField.
  rewrite (seekg_beg_usable _ _ Hfail).
  change (pending (open_stream ?f)) with f.
  rewrite (scan_header_finds FieldName pre line post Hne Hpre Hnl Hline).
  change (eofbit (open_stream post)) with false. cbv beta iota. simpl negb.
  unfold substr.
  destruct (Nat.ltb_spec (slength line) 9) as [Hlt | _]; [lia |].
  unfold extract_double. unfold columns in Hcols. simpl Nat.sub in Hcols.
  rewrite Hcols, Hnum. reflexivity.
Qed.

(** Whatever made the scan stop, [eofbit] after it means field not found. *)
Lemma getXGremlinHeaderField_throws_at_eof (file : string) (Header H : istream)
    (FieldName LineString NextField : string) (ReturnValue : double) :
  scan_header (S (slength (pending (seekg_beg file Header))))
    (seekg_beg file Header) FieldName EmptyString EmptyString
  = Some (H, LineString, NextField) ->
  eofbit H = true ->
  getXGremlinHeaderField file Header FieldName ReturnValue = (H, Thrown 1).
Proof.
  intros Hscan Heof. unfold getXGremlinHeaderField.
  rewrite Hscan, Heof. reflexivity.
Qed.

(** C10.  When the first line whose first token is the requested field name
    is the last line of the file and has no newline, the scan loop leaves
    because the name matched, with that line read and [eofbit] set, and
    [getXGremlinHeaderField] throws its field-not-found error. *)
Theorem getXGremlinHeaderField_unterminated_last_line
    (FieldName : string) (pre : list string) (line : string)
    (Header : istream) (ReturnValue : double) :
  FieldName <> EmptyString ->
  Forall (other_line FieldName) pre ->
  no_newline line = true ->
  first_token line EmptyString = FieldName ->
  failbit Header = false ->
  exists H LineString NextField,
    scan_header (S (slength (unlines pre +:+ line)))
      (seekg_beg (unlines pre +:+ line) Header) FieldName EmptyString EmptyString
    = Some (H, LineString, NextField) /\
    LineString = line /\ NextField = FieldName /\ eofbit H = true /\
    snd (getXGremlinHeaderField (unlines pre +:+ line) Header FieldName ReturnValue)
    = Thrown 1.
Proof.
  intros Hne Hpre Hnl Hline Hfail.
  exists (IStream EmptyString true false), line, FieldName.
  assert (Hscan :
    scan_header (S (slength (pending (seekg_beg (unlines pre +:+ line) Header))))
      (seekg_beg (unlines pre +:+ line) Header) FieldName EmptyString EmptyString
    = Some (IStream EmptyString true false, line, FieldName)).
  { rewrite (seekg_beg_usable _ _ Hfail).
    change (pending (open_stream ?f)) with f.
    exact (scan_header_last FieldName pre line Hne Hpre Hnl Hline). }
  rewrite (getXGremlinHeaderField_throws_at_eof _ _ _ _ _ _ ReturnValue Hscan eq_refl).
  rewrite (seekg_beg_usable _ _ Hfail) in Hscan |- *.
  repeat split; solve [reflexivity | exact Hscan].
Qed.

(* =================================================================== *)
(** ** The loops end *)
(* =================================================================== *)

Lemma take_line_shrinks (s l rest : string) :
  take_line s = (l, rest, true) -> (slength rest < slength s)%nat.
Proof.
  revert l. induction s as [|c s IH]; simpl; intros l H; [discriminate |].
  destruct (Ascii.eqb c newline).
  - injection H as _ <-. lia.
  - destruct (take_line s) as [[l' r'] d] eqn:E. injection H as _ <- ->.
    specialize (IH l' eq_refl). lia.
Qed.

(** A [getline] on a good stream leaves it good with less to read, or at
    the end of the file. *)
Lemma getline_progress (s : istream) (str : string) :
  good s = true ->
  (good (fst (getline s str)) = true /\
   (slength (pending (fst (getline s str))) < slength (pending s))%nat)
  \/ eofbit (fst (getline s str)) = true.
Proof.
  intros Hg. unfold getline. rewrite Hg.
  destruct (take_line (pending s)) as [[l rest] d] eqn:E.
  destruct d; simpl; [left | right; reflexivity].
  split; [reflexivity | eapply take_line_shrinks; eassumption].
Qed.

Lemma scan_header_total (fuel : nat) :
  forall (Header : istream) (FieldName LineString NextField : string),
    good Header = true ->
    (slength (pending Header) < fuel)%nat ->
    exists H L N,
      scan_header fuel Header FieldName LineString NextField = Some (H, L, N) /\
      (eofbit H = false -> failbit H = false).
Proof.
  induction fuel as [|fuel IH]; intros Header FieldName LineString NextField Hg Hlen;
    [lia |].
  simpl. destruct (getline Header LineString) as [H' L'] eqn:E.
  destruct (getline_progress Header LineString Hg) as [[Hg' Hlt] | He];
    rewrite E in *; simpl in *.
  - destruct (negb (String.eqb (first_token L' NextField) FieldName)
              && negb (eofbit H')).
    + apply IH; [assumption | lia].
    + eexists _, _, _. split; [reflexivity |].
      intros _. unfold good in Hg'. apply andb_true_iff in Hg' as [_ Hf].
      now apply negb_true_iff in Hf.
  - rewrite He, andb_false_r. eexists _, _, _. split; [reflexivity |].
    congruence.
Qed.

(** [getXGremlinHeaderField] on a stream without [failbit] ends, and when
    it returns a value the stream is good. *)
Lemma getXGremlinHeaderField_ends (file : string) (Header : istream)
    (FieldName : string) (ReturnValue : double) :
  failbit Header = false ->
  snd (getXGremlinHeaderField file Header FieldName ReturnValue) <> Looping /\
  (forall v, snd (getXGremlinHeaderField file Header FieldName ReturnValue)
             = Returned v ->
             good (fst (getXGremlinHeaderField file Header FieldName ReturnValue))
             = true).
Proof.
  intros Hf. unfold getXGremlinHeaderField.
  rewrite (seekg_beg_usable _ _ Hf). change (pending (open_stream ?f)) with f.
  destruct (scan_header_total (S (slength file)) (open_stream file) FieldName
              EmptyString EmptyString eq_refl) as (H & L & N & -> & Hgood);
    [simpl; lia |].
  destruct (eofbit H) eqn:He; simpl.
  - split; [discriminate | discriminate].
  - destruct (substr L 9 23); simpl; (split; [discriminate |]).
    + intros _ _. unfold good. now rewrite He, (Hgood eq_refl).
    + discriminate.
Qed.

Lemma read_grid_ends (file : string) (header : istream) (u : Uninit) :
  failbit header = false ->
  snd (read_grid file header u) <> Looping /\
  (forall g, snd (read_grid file header u) = Returned g ->
             good (fst (read_grid file header u)) = true).
Proof.
  intros Hf. unfold read_grid.
  repeat
    match goal with
    | |- context [getXGremlinHeaderField file ?h ?fld ?rv] =>
        let E := fresh "E" in
        let Hl := fresh "Hl" in
        let Hg := fresh "Hg" in
        let Hx := fresh "Hx" in
        assert (Hx : failbit h = false) by
          (first [ assumption
                 | match goal with
                   | G : good h = true |- _ =>
                       unfold good in G; apply andb_true_iff in G as [_ G];
                       now apply negb_true_iff in G
                   end ]);
        destruct (getXGremlinHeaderField_ends file h fld rv Hx) as [Hl Hg];
        destruct (getXGremlinHeaderField file h fld rv) as [? [?| ? | |]] eqn:E;
        simpl in Hl, Hg; try congruence;
        try (specialize (Hg _ eq_refl)); clear Hx
    end;
    simpl; split; try discriminate; try congruence.
Qed.

Lemma load_loop_total (fuel : nat) :
  forall (calData : istream) (LineString : string) (xi yi : double) (r : Response),
    eofbit calData = true \/
    (good calData = true /\ (S (slength (pending calData)) < fuel)%nat) ->
    (0 < fuel)%nat ->
    exists r', load_loop fuel calData LineString xi yi r = Some r'.
Proof.
  induction fuel as [|fuel IH]; intros calData LineString xi yi r Hinv Hpos; [lia |].
  cbn [load_loop]. destruct Hinv as [He | [Hg Hlen]].
  - rewrite He. eauto.
  - assert (He : eofbit calData = false).
    { unfold good in Hg. apply andb_true_iff in Hg as [Hg _].
      now apply negb_true_iff in Hg. }
    rewrite He.
    destruct (extract_double (Some LineString) xi) as [iss xi'].
    destruct (extract_double iss yi) as [iss' yi'].
    destruct (getline calData LineString) as [calData' L'] eqn:E.
    pose proof (getline_progress calData LineString Hg) as Hp. rewrite E in Hp.
    simpl in Hp. apply IH.
    + destruct Hp as [[Hg' Hlt] | He']; [right | left; assumption].
      split; [assumption | lia].
    + lia.
Qed.

Lemma load_response_total (content : string) (u : Uninit) :
  exists r, load_response content u = Some r.
Proof.
  unfold load_response.
  destruct (getline (open_stream content) EmptyString) as [calData L] eqn:E.
  pose proof (getline_progress (open_stream content) EmptyString eq_refl) as Hp.
  rewrite E in Hp. simpl in Hp.
  apply load_loop_total; [| lia].
  destruct Hp as [[Hg Hlt] | He]; [right | left; assumption].
  split; [assumption | lia].
Qed.

(* =================================================================== *)
(** ** Response sample loader *)
(* =================================================================== *)

Lemma extract_pair (l : string) (x y xi yi : double) :
  holds_pair l x y ->
  exists r1 r2,
    extract_double (Some l) xi = (Some r1, x) /\
    extract_double (Some r1) yi = (Some r2, y).
Proof.
  intros (c1 & t1 & r1 & c2 & t2 & r2 & H1 & H2 & H3 & H4).
  exists r1, r2. unfold extract_double.
  rewrite H1, H2, H3, H4. split; reflexivity.
Qed.

(** Each pass of the loop adds one sample: the counter, the two vectors
    and the lines printed grow together. *)
Lemma load_loop_grows (fuel : nat) :
  forall (calData : istream) (LineString : string) (xi yi : double)
         (r r' : Response),
    load_loop fuel calData LineString xi yi r = Some r' ->
    (n r <= n r')%nat /\
    (n r' = n r -> r' = r) /\
    (length (xVec r) = n r -> length (xVec r') = n r').
Proof.
  induction fuel as [|fuel IH]; intros calData LineString xi yi r r' H;
    [discriminate |].
  cbn [load_loop] in H. destruct (eofbit calData).
  - injection H as <-. repeat split; auto.
  - destruct (extract_double (Some LineString) xi) as [iss xi'].
    destruct (extract_double iss yi) as [iss' yi'].
    destruct (getline calData LineString) as [calData' L'].
    apply IH in H as (Hle & _ & Hlen). simpl in Hle, Hlen.
    repeat split; [lia | lia |].
    intros Hn. apply Hlen. rewrite length_app. simpl. lia.
Qed.

Lemma load_response_none (content : string) (u : Uninit) (r : Response) :
  load_response content u = Some r -> n r = O -> r = Loaded O [] [] [].
Proof.
  unfold load_response.
  destruct (getline (open_stream content) EmptyString) as [calData L].
  intros H Hn. apply load_loop_grows in H as (_ & H & _). auto.
Qed.

Lemma load_response_length (content : string) (u : Uninit) (r : Response) :
  load_response content u = Some r -> length (xVec r) = n r.
Proof.
  unfold load_response.
  destruct (getline (open_stream content) EmptyString) as [calData L].
  intros H. apply load_loop_grows in H as (_ & _ & H). auto.
Qed.

(** With the text of row [w] in [LineString] and the rows [rows] then
    [tail] still to read, the loop loads [w] and [rows], in this order. *)
Lemma load_loop_rows (rows : list Row) :
  forall (fuel : nat) (w : Row) (tail : string) (xi yi : double) (r : Response),
    Forall well_formed_row (w :: rows) ->
    no_newline tail = true ->
    (length rows + 2 <= fuel)%nat ->
    load_loop fuel (open_stream (unlines (map row_text rows) +:+ tail))
      (row_text w) xi yi r
    = Some (Loaded (n r + S (length rows))
              (xVec r ++ map row_x (w :: rows))
              (yVec r ++ map row_y (w :: rows))
              (printed r ++ map sample_of (w :: rows))).
Proof.
  induction rows as [|w' rows IH]; intros fuel w tail xi yi r Hall Htail Hfuel;
    inversion Hall as [|? ? [Hnl Hpair] Hrest]; subst;
    destruct fuel as [|fuel]; try (simpl in Hfuel; lia);
    cbn [load_loop]; change (eofbit (open_stream ?c)) with false; cbv iota;
    destruct (extract_pair _ _ _ xi yi Hpair) as (r1 & r2 & -> & ->).
  - simpl unlines. rewrite append_nil, (getline_unterminated _ _ Htail).
    destruct fuel as [|fuel]; [simpl in Hfuel; lia |].
    cbn [load_loop eofbit]. simpl. do 2 f_equal. lia.
  - simpl map. simpl unlines. rewrite append_assoc, append_cons.
    inversion Hrest as [|? ? [Hnl' _] _]; subst.
    rewrite (getline_terminated _ _ _ Hnl').
    rewrite (IH fuel w' tail (row_x w) (row_y w)); [| assumption .. |].
    + cbn [n xVec yVec printed]. rewrite <- !app_assoc. simpl.
      do 2 f_equal. lia.
    + simpl in Hfuel. lia.
Qed.

(** C4 (as amended).  For a response file made of newline-terminated lines
    that each hold two numbers, followed by nothing or by white space
    without a newline, the loader appends the pairs to the two sequences in
    file order, and [n] is the number of lines; the unterminated blank
    tail adds nothing. *)
Theorem load_response_rows (rows : list Row) (tail : string) (u : Uninit) :
  Forall well_formed_row rows ->
  no_newline tail = true ->
  skipws tail = EmptyString ->
  exists r,
    load_response (unlines (map row_text rows) +:+ tail) u = Some r /\
    n r = length rows /\
    xVec r = map row_x rows /\
    yVec r = map row_y rows.
Proof.
  intros Hall Htail _. unfold load_response.
  destruct rows as [|w rows].
  - simpl unlines. rewrite append_nil, (getline_unterminated _ _ Htail).
    eexists. split; [reflexivity |]. repeat split; reflexivity.
  - simpl map. simpl unlines. rewrite append_assoc, append_cons.
    inversion Hall as [|? ? [Hnl _] _]; subst.
    rewrite (getline_terminated _ _ _ Hnl).
    rewrite (load_loop_rows rows _ w tail); [| assumption .. |].
    + eexists. split; [reflexivity |]. repeat split; reflexivity.
    + rewrite slength_append. simpl.
      pose proof (slength_unlines (map row_text rows) tail) as Hl.
      rewrite length_map in Hl. lia.
Qed.

(* =================================================================== *)
(** ** Calibration loop *)
(* =================================================================== *)

Section Loop.
Variables (g : GridMetadata) (xmin xmax : double) (m : SplineFit).

(** What was written before the loop stays in front. *)
Lemma calibrate_prefix (k : nat) :
  forall (i : Z) (spectrum : istream) (floatyi : Z) (written : string),
    calibrate g xmin xmax m k i spectrum floatyi written
    = written +:+ calibrate g xmin xmax m k i spectrum floatyi EmptyString.
Proof.
  induction k as [|k IH]; intros i spectrum floatyi written; simpl.
  - now rewrite append_empty_r.
  - destruct (read_float spectrum floatyi) as [s' f'].
    rewrite IH. rewrite (IH _ _ _ (EmptyString +:+ _)).
    rewrite append_nil, append_assoc. reflexivity.
Qed.

(** One record of four bytes per iteration. *)
Lemma calibrate_length (k : nat) :
  forall (i : Z) (spectrum : istream) (floatyi : Z) (written : string),
    slength (calibrate g xmin xmax m k i spectrum floatyi written)
    = (slength written + 4 * k)%nat.
Proof.
  induction k as [|k IH]; intros i spectrum floatyi written; simpl.
  - lia.
  - destruct (read_float spectrum floatyi) as [s' f'].
    rewrite IH, slength_append, slength_bytes_of_bits. lia.
Qed.

(** The record of iteration [j] holds [yCal] for index [i + j] and the
    value [floatyi] has after the read of that iteration. *)
Lemma calibrate_record (k : nat) :
  forall (j : nat) (i : Z) (spectrum : istream) (floatyi : Z) (written : string),
    (j < k)%nat ->
    stake 4 (sdrop (slength written + 4 * j)
               (calibrate g xmin xmax m k i spectrum floatyi written))
    = bytes_of_bits
        (F.to_bits (yCal g xmin xmax m (i + Z.of_nat j)
                      (floatyi_at j spectrum floatyi))).
Proof.
  induction k as [|k IH]; intros j i spectrum floatyi written Hj; [lia |].
  cbn [calibrate]. destruct j as [|j].
  - cbn [floatyi_at]. destruct (read_float spectrum floatyi) as [s' f'].
    cbn [snd]. rewrite calibrate_prefix, Nat.add_0_r, Z.add_0_r.
    rewrite append_assoc, sdrop_append.
    apply (stake_append (bytes_of_bits _)).
  - cbn [floatyi_at]. destruct (read_float spectrum floatyi) as [s' f'].
    specialize (IH j (i + 1) s' f' (written +:+ bytes_of_bits
                  (F.to_bits (yCal g xmin xmax m i f')))).
    rewrite slength_append, slength_bytes_of_bits in IH.
    replace (slength written + 4 * S j)%nat
      with (slength written + 4 + 4 * j)%nat by lia.
    rewrite IH by lia. do 3 f_equal. lia.
Qed.

Lemma record_calibrate (k : nat) (i : Z) (spectrum : istream) (floatyi : Z) :
  0 <= i < Z.of_nat k ->
  record i (calibrate g xmin xmax m k 0 spectrum floatyi EmptyString)
  = Some (bytes_of_bits
            (F.to_bits (yCal g xmin xmax m i
                          (floatyi_at (Z.to_nat i) spectrum floatyi)))).
Proof.
  intros Hi. unfold record.
  pose proof (calibrate_record k (Z.to_nat i) 0 spectrum floatyi EmptyString)
    as H.
  simpl slength in H. rewrite Nat.add_0_l, Z.add_0_l, Z2Nat.id in H by lia.
  rewrite H by lia. reflexivity.
Qed.
End Loop.

(** While the spectrum has whole records left, each read delivers the next
    one. *)
Lemma floatyi_at_record (j : nat) :
  forall (data : string) (floatyi : Z),
    (4 * S j <= slength data)%nat ->
    floatyi_at j (open_stream data) floatyi
    = bits_of_bytes (stake 4 (sdrop (4 * j) data)).
Proof.
  induction j as [|j IH]; intros data floatyi Hlen; cbn [floatyi_at];
    unfold read_float; change (good (open_stream data)) with true; cbv iota;
    change (pending (open_stream data)) with data;
    rewrite slength_stake;
    replace (Nat.min 4 (slength data)) with 4%nat by lia;
    change (4 =? 4)%nat with true; cbv iota.
  - reflexivity.
  - change (IStream (sdrop 4 data) false false) with (open_stream (sdrop 4 data)).
    rewrite IH by (rewrite slength_sdrop; lia).
    rewrite sdrop_sdrop. do 3 f_equal. lia.
Qed.

Lemma record_some (i : Z) (data r : string) :
  0 <= i -> record i data = Some r ->
  (4 * S (Z.to_nat i) <= slength data)%nat /\
  r = stake 4 (sdrop (4 * Z.to_nat i) data).
Proof.
  unfold record. intros Hi H.
  destruct (Nat.eqb_spec (slength (stake 4 (sdrop (4 * Z.to_nat i) data))) 4)
    as [E | E]; [| discriminate].
  injection H as <-. split; [| reflexivity].
  rewrite slength_stake, slength_sdrop in E. lia.
Qed.

(* =================================================================== *)
(** ** Header copy *)
(* =================================================================== *)

Lemma copy_loop_copies (rest : string) :
  forall (fuel : nat) (NextByte : ascii) (copied : string),
    (slength rest + 2 <= fuel)%nat ->
    copy_loop fuel (open_stream rest) NextByte copied
    = Some (copied +:+ String NextByte rest).
Proof.
  induction rest as [|c rest IH]; intros fuel NextByte copied Hfuel;
    destruct fuel as [|fuel]; try (simpl in Hfuel; lia); cbn [copy_loop];
    change (eofbit (open_stream ?x)) with false; cbv iota; unfold get; simpl.
  - destruct fuel; [simpl in Hfuel; lia | reflexivity].
  - change (IStream rest false false) with (open_stream rest).
    rewrite IH by (simpl in Hfuel; lia).
    rewrite append_assoc. reflexivity.
Qed.

(** The copy loop delivers every byte of the stream, in order. *)
Lemma copy_header_all (data : string) (NextByte : ascii) :
  copy_header (open_stream data) NextByte = Some data.
Proof.
  unfold copy_header, get. change (good (open_stream data)) with true.
  change (pending (open_stream data)) with data. cbv iota.
  destruct data as [|c data].
  - reflexivity.
  - change (IStream data false false) with (open_stream data).
    rewrite copy_loop_copies by (simpl; lia). reflexivity.
Qed.

(* =================================================================== *)
(** ** Runs of [main] *)
(* =================================================================== *)

Lemma outcome_emit (evs : list Event) (r : Result) :
  outcome (emit evs r) = outcome r.
Proof. now destruct r as [[o fs] tr]. Qed.

Lemma final_fs_emit (evs : list Event) (r : Result) :
  final_fs (emit evs r) = final_fs r.
Proof. now destruct r as [[o fs] tr]. Qed.

Lemma trace_emit (evs : list Event) (r : Result) :
  trace (emit evs r) = evs ++ trace r.
Proof. now destruct r as [[o fs] tr]. Qed.

(** The four file names differ by their extension. *)
Lemma dat_hdr_distinct (a b : string) : a +:+ ".dat" <> b +:+ ".hdr".
Proof.
  revert b. induction a as [|c a IH]; intros [|d b] H;
    rewrite ?append_nil, ?append_cons in H.
  - discriminate.
  - apply (f_equal slength) in H. simpl in H. rewrite slength_append in H.
    simpl in H. lia.
  - apply (f_equal slength) in H. simpl in H. rewrite slength_append in H.
    simpl in H. lia.
  - injection H as _ H. exact (IH _ H).
Qed.

Lemma good_failbit (s : istream) : good s = true -> failbit s = false.
Proof.
  unfold good. intros H. apply andb_true_iff in H as [_ H].
  now apply negb_true_iff in H.
Qed.

(** The last stage writes to [CalHDR] only. *)
Lemma header_stage_other (argv : list string) (fs : FileSystem) (u : Uninit)
    (header : istream) (p : string) :
  p <> CalHDR argv ->
  files (final_fs (header_stage argv fs u header)) !! p = files fs !! p.
Proof.
  intros Hp. unfold header_stage, open_out.
  destruct (decide (CalHDR argv ∈ unwritable fs)); simpl;
    destruct (copy_header _ _); simpl; rewrite ?lookup_insert_ne by auto;
    reflexivity.
Qed.

Lemma header_stage_exit (argv : list string) (fs : FileSystem) (u : Uninit)
    (header : istream) :
  failbit header = false ->
  outcome (header_stage argv fs u header) = Exit 0.
Proof.
  intros Hf. unfold header_stage.
  rewrite (seekg_beg_usable _ _ Hf), copy_header_all. reflexivity.
Qed.

(** When [CalHDR] can be opened, it receives the bytes the header file has
    at that moment. *)
Lemma header_stage_copy (argv : list string) (fs : FileSystem) (u : Uninit)
    (header : istream) :
  failbit header = false ->
  CalHDR argv ∉ unwritable fs ->
  files (final_fs (header_stage argv fs u header)) !! CalHDR argv
  = Some (bytes_at (FS (<[CalHDR argv := EmptyString]> (files fs)) (unwritable fs))
            (SpectrumHDR argv)).
Proof.
  intros Hf Hw. unfold header_stage, open_out.
  destruct (decide (CalHDR argv ∈ unwritable fs)); [contradiction |].
  cbn [default]. rewrite (seekg_beg_usable _ _ Hf), copy_header_all.
  cbn. apply lookup_insert_eq.
Qed.

(** A run that exits with status 0 went through every stage. *)
Lemma main_exit_0 (argv : list string) (fs : FileSystem) (u : Uninit) :
  outcome (main argv fs u) = Exit 0 ->
  exists file header g pts content r xmin xmax m fs1,
    open_in fs (SpectrumHDR argv) = Some file /\
    read_grid file (open_stream file) u = (header, Returned g) /\
    numPts g = Some pts /\
    open_in fs (arg argv ARG_RESPONSE) = Some content /\
    load_response content u = Some r /\
    front (xVec r) = Some xmin /\
    back (xVec r) = Some xmax /\
    coefficients argv u < Z.of_nat (n r) /\
    gsl_fit (coefficients argv u) ((coefficients argv u - 2) mod 2 ^ 64)
      (n r) (xVec r) (yVec r) xmin xmax = Some m /\
    open_out fs (CalDAT argv) = Some fs1 /\
    final_fs (main argv fs u)
    = final_fs
        (header_stage argv
           (close_out fs1 (CalDAT argv)
              (calibrate g xmin xmax m (Z.to_nat pts) 0
                 (open_stream (bytes_at fs1 (SpectrumDAT argv)))
                 (u_floatyi u) EmptyString))
           u header).
Proof.
  unfold main, coefficients.
  destruct (negb (length argv =? REQUIRED_NUM_ARGS_MODE1)%nat
            && negb (length argv =? REQUIRED_NUM_ARGS_MODE2)%nat);
    [discriminate |].
  destruct (getNumCoefficients argv (u_ncoeffs u)) as [ncoeffs said].
  cbn [fst]. rewrite !outcome_emit, !final_fs_emit.
  unfold metadata_stage.
  destruct (open_in fs (SpectrumHDR argv)) as [file |]; [| discriminate].
  rewrite outcome_emit, final_fs_emit.
  destruct (read_grid file (open_stream file) u) as [header [g | c | |]] eqn:Egrid;
    try discriminate.
  destruct (numPts g) as [pts |] eqn:Epts; [| discriminate].
  rewrite outcome_emit, final_fs_emit. unfold response_stage.
  destruct (open_in fs (arg argv ARG_RESPONSE)) as [content |]; [| discriminate].
  destruct (load_response content u) as [r |] eqn:Eload; [| discriminate].
  rewrite outcome_emit, final_fs_emit. unfold fit_stage.
  destruct (xVec r !! O) as [xmin |] eqn:Emin; [| discriminate].
  destruct (xVec r !! Z.to_nat ((Z.of_nat (length (xVec r)) - 1) mod 2 ^ 64))
    as [xmax |] eqn:Emax; [| discriminate].
  destruct (Z.leb_spec (Z.of_nat (n r)) ncoeffs) as [Hle | Hlt]; [discriminate |].
  destruct (gsl_fit ncoeffs ((ncoeffs - 2) mod 2 ^ 64) (n r) (xVec r) (yVec r)
              xmin xmax) as [m |] eqn:Efit; [| discriminate].
  rewrite outcome_emit, final_fs_emit. unfold calibration_stage.
  destruct (open_in fs (SpectrumDAT argv)); [| discriminate].
  destruct (open_out fs (CalDAT argv)) as [fs1 |]; [| discriminate].
  rewrite outcome_emit, final_fs_emit. intros _.
  exists file, header, g, pts, content, r, xmin, xmax, m, fs1.
  repeat split; solve [reflexivity | assumption].
Qed.

(** The calibrated spectrum left by a successful run is what the
    calibration loop wrote. *)
Lemma main_calibrated_spectrum (argv : list string) (fs : FileSystem) (u : Uninit)
    (g : GridMetadata) (pts : Z) (r : Response) (xmin xmax : double) :
  outcome (main argv fs u) = Exit 0 ->
  grid_read argv fs u = Some g ->
  numPts g = Some pts ->
  response_loaded argv fs u = Some r ->
  front (xVec r) = Some xmin ->
  back (xVec r) = Some xmax ->
  exists m fs1,
    gsl_fit (coefficients argv u) ((coefficients argv u - 2) mod 2 ^ 64)
      (n r) (xVec r) (yVec r) xmin xmax = Some m /\
    open_out fs (CalDAT argv) = Some fs1 /\
    bytes_at (final_fs (main argv fs u)) (CalDAT argv)
    = calibrate g xmin xmax m (Z.to_nat pts) 0
        (open_stream (bytes_at fs1 (SpectrumDAT argv))) (u_floatyi u) EmptyString.
Proof.
  intros H Hg Hpts Hr Hmin Hmax.
  destruct (main_exit_0 argv fs u H)
    as (file & header & g' & pts' & content & r' & xmin' & xmax' & m & fs1
        & Efile & Egrid & Epts & Econtent & Eload & Emin & Emax & _ & Efit
        & Eout & Efs).
  unfold grid_read in Hg. rewrite Efile, Egrid in Hg. injection Hg as ->.
  unfold response_loaded in Hr. rewrite Econtent, Eload in Hr. injection Hr as ->.
  assert (pts' = pts) as -> by congruence.
  assert (xmin' = xmin) as -> by congruence.
  assert (xmax' = xmax) as -> by congruence.
  exists m, fs1. repeat split; [assumption .. |].
  unfold bytes_at at 1. rewrite Efs, header_stage_other.
  - cbn. now rewrite lookup_insert_eq.
  - unfold CalDAT, CalHDR. intros E. apply append_inj_l in E. discriminate.
Qed.

Lemma open_out_some (fs fs1 : FileSystem) (p : string) :
  open_out fs p = Some fs1 ->
  fs1 = FS (<[p := EmptyString]> (files fs)) (unwritable fs).
Proof.
  unfold open_out. destruct (decide (p ∈ unwritable fs)); [discriminate |].
  now intros [= <-].
Qed.

(** The spectrum the loop reads is the input file, unless the output file
    is that very file. *)
Lemma spectrum_seen (argv : list string) (fs fs1 : FileSystem) :
  open_out fs (CalDAT argv) = Some fs1 ->
  SpectrumDAT argv <> CalDAT argv ->
  bytes_at fs1 (SpectrumDAT argv) = bytes_at fs (SpectrumDAT argv).
Proof.
  intros H Hne. rewrite (open_out_some _ _ _ H). unfold bytes_at. cbn.
  rewrite lookup_insert_ne by auto. reflexivity.
Qed.

(* =================================================================== *)
(** ** Properties of the calibrated spectrum *)
(* =================================================================== *)

(** C3.  On a run that succeeds, with [xmin] and [xmax] the first and the
    last x value loaded from the response file: at every index [i] below
    the sample count whose query wavenumber [i * delw + wstart] is not
    inside [[xmin, xmax]], record [i] of the calibrated spectrum is the
    float 0.0 (four zero bytes). *)
Theorem calibrated_zero_outside_domain
    (argv : list string) (fs : FileSystem) (u : Uninit)
    (g : GridMetadata) (pts : Z) (r : Response) (xmin xmax : double) (i : Z) :
  outcome (main argv fs u) = Exit 0 ->
  grid_read argv fs u = Some g ->
  numPts g = Some pts ->
  response_loaded argv fs u = Some r ->
  front (xVec r) = Some xmin ->
  back (xVec r) = Some xmax ->
  0 <= i < pts ->
  in_domain g xmin xmax i = false ->
  record i (bytes_at (final_fs (main argv fs u)) (CalDAT argv))
  = Some zero_record.
Proof.
  intros H Hg Hpts Hr Hmin Hmax Hi Hout.
  destruct (main_calibrated_spectrum argv fs u g pts r xmin xmax
              H Hg Hpts Hr Hmin Hmax) as (m & fs1 & _ & _ & ->).
  rewrite record_calibrate by lia.
  unfold yCal. rewrite Hout. reflexivity.
Qed.

(** C5.  On a run that gets through the calibration loop, the calibrated
    spectrum holds exactly [numPts] records of four bytes, whatever the
    number of coefficients; and record [i] is computed from record [i] of
    the measured spectrum, when that file has one and is not the file
    written to. *)
Theorem calibrated_record_count
    (argv : list string) (fs : FileSystem) (u : Uninit)
    (g : GridMetadata) (pts : Z) :
  outcome (main argv fs u) = Exit 0 ->
  grid_read argv fs u = Some g ->
  numPts g = Some pts ->
  slength (bytes_at (final_fs (main argv fs u)) (CalDAT argv))
  = (4 * Z.to_nat pts)%nat /\
  forall (i : Z) (measured : string),
    0 <= i < pts ->
    SpectrumDAT argv <> CalDAT argv ->
    record i (bytes_at fs (SpectrumDAT argv)) = Some measured ->
    exists xmin xmax m,
      record i (bytes_at (final_fs (main argv fs u)) (CalDAT argv))
      = Some (bytes_of_bits
                (F.to_bits (yCal g xmin xmax m i (bits_of_bytes measured)))).
Proof.
  intros H Hg Hpts.
  destruct (main_exit_0 argv fs u H)
    as (file & header & g' & pts' & content & r & xmin & xmax & m & fs1
        & Efile & Egrid & Epts & Econtent & Eload & Emin & Emax & _ & _
        & Eout & _).
  assert (Hg' : grid_read argv fs u = Some g')
    by (unfold grid_read; now rewrite Efile, Egrid).
  assert (g' = g) as -> by congruence.
  assert (pts' = pts) as -> by congruence.
  assert (Hr : response_loaded argv fs u = Some r)
    by (unfold response_loaded; now rewrite Econtent).
  destruct (main_calibrated_spectrum argv fs u g pts r xmin xmax
              H Hg Hpts Hr Emin Emax) as (m' & fs1' & _ & Eout' & ->).
  assert (fs1' = fs1) as -> by congruence.
  split.
  - rewrite calibrate_length. simpl. lia.
  - intros i measured Hi Hne Hrec. exists xmin, xmax, m'.
    rewrite record_calibrate by lia.
    rewrite (spectrum_seen argv fs fs1 Eout Hne).
    apply record_some in Hrec as [Hlen ->]; [| lia].
    rewrite floatyi_at_record by exact Hlen. reflexivity.
Qed.


(* =================================================================== *)
(** ** The sample-count guard and the domain bounds *)
(* =================================================================== *)

Lemma coefficients_positive (argv : list string) (u : Uninit) :
  1 <= coefficients argv u.
Proof.
  unfold coefficients, getNumCoefficients.
  destruct (length argv =? REQUIRED_NUM_ARGS_MODE1)%nat;
    [unfold DEFAULT_NUM_COEFFS; cbn; lia |].
  destruct (is_numeric (arg argv ARG_COEFFS)); [| cbn; lia].
  destruct (Z.ltb_spec (read_size_t (arg argv ARG_COEFFS) (u_ncoeffs u)) 4);
    cbn; lia.
Qed.

Lemma grid_read_some (argv : list string) (fs : FileSystem) (u : Uninit)
    (g : GridMetadata) :
  grid_read argv fs u = Some g ->
  exists file header,
    open_in fs (SpectrumHDR argv) = Some file /\
    read_grid file (open_stream file) u = (header, Returned g).
Proof.
  unfold grid_read. destruct (open_in fs (SpectrumHDR argv)) as [file |];
    [| discriminate].
  destruct (read_grid file (open_stream file) u) as [header t] eqn:E.
  cbn [snd]. destruct t as [g' | | |]; try discriminate.
  intros [= ->]. exists file, header. split; [reflexivity | exact E].
Qed.

Lemma response_loaded_some (argv : list string) (fs : FileSystem) (u : Uninit)
    (r : Response) :
  response_loaded argv fs u = Some r ->
  exists content,
    open_in fs (arg argv ARG_RESPONSE) = Some content /\
    load_response content u = Some r.
Proof.
  unfold response_loaded.
  destruct (open_in fs (arg argv ARG_RESPONSE)) as [content |]; [| discriminate].
  eauto.
Qed.

(** C9.  [xmin] and [xmax] are read from [xVec] before the guard
    [n <= ncoeffs] is evaluated.  On a run that reads its header and opens
    a response file from which no sample is loaded, both accesses are out
    of bounds: the behaviour is undefined there, although the guard, had it
    been reached, would have stopped the run. *)
Theorem bounds_read_before_guard
    (argv : list string) (fs : FileSystem) (u : Uninit)
    (g : GridMetadata) (pts : Z) (r : Response) :
  (length argv = 4 \/ length argv = 5)%nat ->
  grid_read argv fs u = Some g ->
  numPts g = Some pts ->
  response_loaded argv fs u = Some r ->
  n r = O ->
  front (xVec r) = None /\
  back (xVec r) = None /\
  (Z.of_nat (n r) <=? coefficients argv u) = true /\
  outcome (main argv fs u) = Undefined.
Proof.
  intros Hargc Hg Hpts Hr Hn.
  destruct (grid_read_some _ _ _ _ Hg) as (file & header & Efile & Egrid).
  destruct (response_loaded_some _ _ _ _ Hr) as (content & Econtent & Eload).
  pose proof (load_response_none _ _ _ Eload Hn) as ->.
  repeat split.
  - pose proof (coefficients_positive argv u). cbn. apply Z.leb_le. lia.
  - unfold main.
    replace (negb (length argv =? REQUIRED_NUM_ARGS_MODE1)%nat
             && negb (length argv =? REQUIRED_NUM_ARGS_MODE2)%nat)
      with false by (destruct Hargc as [-> | ->]; reflexivity).
    destruct (getNumCoefficients argv (u_ncoeffs u)) as [ncoeffs said].
    rewrite !outcome_emit. unfold metadata_stage.
    rewrite Efile, outcome_emit, Egrid, Hpts, outcome_emit.
    unfold response_stage. rewrite Econtent, Eload, outcome_emit.
    reflexivity.
Qed.

(** X10.  For one to [ncoeffs] samples the guard does stop the run: exit status
    1, no GSL call, no file written. *)
Lemma guard_stops_short_response
    (argv : list string) (fs : FileSystem) (u : Uninit)
    (g : GridMetadata) (pts : Z) (r : Response) :
  (length argv = 4 \/ length argv = 5)%nat ->
  grid_read argv fs u = Some g ->
  numPts g = Some pts ->
  response_loaded argv fs u = Some r ->
  (0 < n r)%nat ->
  Z.of_nat (n r) <= coefficients argv u ->
  outcome (main argv fs u) = Exit 1 /\
  final_fs (main argv fs u) = fs /\
  last (trace (main argv fs u)) = Some (Print (ErrTooFewPoints (arg argv ARG_RESPONSE))).
Proof.
  intros Hargc Hg Hpts Hr Hn Hle.
  destruct (grid_read_some _ _ _ _ Hg) as (file & header & Efile & Egrid).
  destruct (response_loaded_some _ _ _ _ Hr) as (content & Econtent & Eload).
  pose proof (load_response_length _ _ _ Eload) as Hlen.
  unfold main, coefficients in *.
  replace (negb (length argv =? REQUIRED_NUM_ARGS_MODE1)%nat
           && negb (length argv =? REQUIRED_NUM_ARGS_MODE2)%nat)
    with false by (destruct Hargc as [-> | ->]; reflexivity).
  destruct (getNumCoefficients argv (u_ncoeffs u)) as [ncoeffs said].
  cbn [fst] in Hle.
  rewrite !outcome_emit, !final_fs_emit, !trace_emit. unfold metadata_stage.
  rewrite Efile, outcome_emit, final_fs_emit, trace_emit, Egrid, Hpts,
    outcome_emit, final_fs_emit, trace_emit.
  unfold response_stage.
  rewrite Econtent, Eload, outcome_emit, final_fs_emit, trace_emit.
  unfold fit_stage.
  destruct (xVec r !! O) as [xmin |] eqn:Emin.
  2: { apply lookup_ge_None in Emin. lia. }
  destruct (xVec r !! Z.to_nat ((Z.of_nat (length (xVec r)) - 1) mod 2 ^ 64))
    as [xmax |] eqn:Emax.
  2: { apply lookup_ge_None in Emax.
       pose proof (Z.mod_pos_bound (Z.of_nat (length (xVec r)) - 1) (2 ^ 64)
                     ltac:(lia)) as Hm.
       pose proof (Z.mod_le (Z.of_nat (length (xVec r)) - 1) (2 ^ 64)
                     ltac:(lia) ltac:(lia)) as Hm'.
       lia. }
  apply Z.leb_le in Hle. rewrite Hle. cbn [outcome final_fs trace fst snd].
  repeat split.
  rewrite !app_assoc. apply last_snoc.
Qed.

(** No run of [main] hangs in one of its loops. *)
Lemma main_ends (argv : list string) (fs : FileSystem) (u : Uninit) :
  outcome (main argv fs u) <> Diverged.
Proof.
  unfold main.
  destruct (negb _ && negb _); [discriminate |].
  destruct (getNumCoefficients argv (u_ncoeffs u)) as [ncoeffs said].
  rewrite !outcome_emit. unfold metadata_stage.
  destruct (open_in fs (SpectrumHDR argv)) as [file |]; [| discriminate].
  rewrite outcome_emit.
  pose proof (read_grid_ends file (open_stream file) u eq_refl) as [Hloop Hgood].
  destruct (read_grid file (open_stream file) u) as [header [g | c | |]];
    cbn [snd fst] in Hloop, Hgood; try discriminate; [| congruence].
  specialize (Hgood g eq_refl).
  destruct (numPts g) as [pts |]; [| discriminate].
  rewrite outcome_emit. unfold response_stage.
  destruct (open_in fs (arg argv ARG_RESPONSE)) as [content |]; [| discriminate].
  destruct (load_response_total content u) as [r ->].
  rewrite outcome_emit. unfold fit_stage.
  destruct (xVec r !! O); [| discriminate].
  destruct (xVec r !! _); [| discriminate].
  destruct (Z.of_nat (n r) <=? ncoeffs); [discriminate |].
  destruct (gsl_fit _ _ _ _ _ _ _); [| discriminate].
  rewrite outcome_emit. unfold calibration_stage.
  destruct (open_in fs (SpectrumDAT argv)); [| discriminate].
  destruct (open_out fs (CalDAT argv)); [| discriminate].
  rewrite outcome_emit, header_stage_exit; [discriminate |].
  now apply good_failbit.
Qed.

(* =================================================================== *)
(** ** Header copy of a whole run *)
(* =================================================================== *)

(** X9.  When the output header can be opened and is not the input header, a
    successful run leaves in it the bytes of the input header, which is
    itself unchanged. *)
Lemma header_copy_exact (argv : list string) (fs : FileSystem) (u : Uninit) :
  outcome (main argv fs u) = Exit 0 ->
  CalHDR argv ∉ unwritable fs ->
  SpectrumHDR argv <> CalHDR argv ->
  files (final_fs (main argv fs u)) !! CalHDR argv = files fs !! SpectrumHDR argv /\
  files (final_fs (main argv fs u)) !! SpectrumHDR argv = files fs !! SpectrumHDR argv.
Proof.
  intros H Hw Hne.
  destruct (main_exit_0 argv fs u H)
    as (file & header & g & pts & content & r & xmin & xmax & m & fs1
        & Efile & Egrid & _ & _ & _ & _ & _ & _ & _ & Eout & ->).
  pose proof (read_grid_ends file (open_stream file) u eq_refl) as [_ Hgood].
  rewrite Egrid in Hgood. specialize (Hgood g eq_refl). cbn [fst] in Hgood.
  apply good_failbit in Hgood.
  rewrite (open_out_some _ _ _ Eout).
  assert (Hdat : CalDAT argv <> SpectrumHDR argv) by apply dat_hdr_distinct.
  split.
  - rewrite header_stage_copy by assumption.
    unfold bytes_at, close_out. cbn [files unwritable].
    rewrite !lookup_insert_ne by auto.
    unfold open_in in Efile. rewrite Efile. reflexivity.
  - rewrite header_stage_other by assumption.
    unfold close_out. cbn [files]. rewrite !lookup_insert_ne by auto.
    reflexivity.
Qed.

(* =================================================================== *)
(** ** The number of coefficients *)
(* =================================================================== *)

(** C1 (the code at the failing input).  With "3" as fourth argument,
    [getNumCoefficients] prints its error and returns 1; [main] takes the 1
    as the number of coefficients and goes on: it opens the spectrum and
    the header and runs the next stage with [ncoeffs = 1] and
    [nbreak = 2^64 - 1], on every file system. *)
Theorem three_coefficients_run_continues
    (prog spec resp out : string) (fs : FileSystem) (u : Uninit) :
  let argv := [prog; spec; resp; out; "3"] in
  getNumCoefficients argv (u_ncoeffs u) = (1, [Print ErrMinCoeffs]) /\
  main argv fs u
  = emit [Print (Banner spec resp out); Print ErrMinCoeffs;
          OpenIn (spec +:+ ".dat")
            (bool_decide (is_Some (open_in fs (spec +:+ ".dat"))))]
      (metadata_stage argv fs u (open_in fs (spec +:+ ".dat")) 1 (2 ^ 64 - 1)) /\
  exists opened tr,
    trace (main argv fs u)
    = Print (Banner spec resp out) :: Print ErrMinCoeffs
        :: OpenIn (spec +:+ ".dat")
             (bool_decide (is_Some (open_in fs (spec +:+ ".dat"))))
        :: OpenIn (spec +:+ ".hdr") opened :: tr.
Proof.
  intros argv.
  assert (Hmain :
    main argv fs u
    = emit [Print (Banner spec resp out); Print ErrMinCoeffs;
            OpenIn (spec +:+ ".dat")
              (bool_decide (is_Some (open_in fs (spec +:+ ".dat"))))]
        (metadata_stage argv fs u (open_in fs (spec +:+ ".dat")) 1 (2 ^ 64 - 1))).
  { unfold main. cbn [length Nat.eqb REQUIRED_NUM_ARGS_MODE1
                        REQUIRED_NUM_ARGS_MODE2 negb andb].
    change (getNumCoefficients argv (u_ncoeffs u)) with (1, [Print ErrMinCoeffs]).
    cbv beta iota.
    change ((1 - 2) mod 2 ^ 64) with (2 ^ 64 - 1).
    change (SpectrumDAT argv) with (spec +:+ ".dat").
    destruct (metadata_stage argv fs u (open_in fs (spec +:+ ".dat")) 1
                (2 ^ 64 - 1)) as [[o f] t].
    reflexivity. }
  split; [reflexivity |]. split; [exact Hmain |].
  rewrite Hmain, trace_emit. unfold metadata_stage.
  change (SpectrumHDR argv) with (spec +:+ ".hdr").
  destruct (open_in fs (spec +:+ ".hdr")) as [file |].
  - rewrite trace_emit. eexists _, _. reflexivity.
  - eexists _, _. reflexivity.
Qed.

(* ===================================================================== *)
(** ** Further properties: the command line *)
(* ===================================================================== *)

Lemma letters_are_not_digits (c : ascii) : isalpha c = true -> isdigit c = false.
Proof.
  unfold isalpha, isdigit. intros H.
  apply orb_true_iff in H as [H | H]; apply andb_true_iff in H as [H1 H2];
    apply Z.leb_le in H1; apply Z.leb_le in H2;
    apply andb_false_iff; right; apply Z.leb_gt; lia.
Qed.

(** X1.  [is_numeric] accepts exactly the strings made of the characters 0 to 9:
    no sign, no decimal point, no exponent; the empty string passes. *)
Lemma is_numeric_digits (a : string) : is_numeric a = sall isdigit a.
Proof.
  induction a as [|c a IH]; simpl; [reflexivity |].
  rewrite <- IH. unfold isalnum.
  destruct (isalpha c) eqn:Ea.
  - now rewrite (letters_are_not_digits c Ea).
  - simpl. now destruct (isdigit c).
Qed.

(** X2.  [getNumCoefficients] returns 1 with one of its two error messages, or a
    number of at least 4 with the line that reports it; with four arguments
    this number is 200. *)
Lemma getNumCoefficients_range (argv : list string) (ncoeffs0 : Z) :
  ((fst (getNumCoefficients argv ncoeffs0) = 1 /\
    (snd (getNumCoefficients argv ncoeffs0) = [Print ErrNotNumber] \/
     snd (getNumCoefficients argv ncoeffs0) = [Print ErrMinCoeffs])) \/
   (4 <= fst (getNumCoefficients argv ncoeffs0) /\
    snd (getNumCoefficients argv ncoeffs0)
    = [Print (SplineCoefficients (fst (getNumCoefficients argv ncoeffs0)))])) /\
  (forall prog spec resp out : string,
     fst (getNumCoefficients [prog; spec; resp; out] ncoeffs0) = DEFAULT_NUM_COEFFS).
Proof.
  unfold getNumCoefficients. split.
  - destruct (length argv =? REQUIRED_NUM_ARGS_MODE1)%nat.
    + right. cbn [fst snd]. split; [unfold DEFAULT_NUM_COEFFS; lia | reflexivity].
    + destruct (is_numeric (arg argv ARG_COEFFS)); [| left; split; auto].
      destruct (Z.ltb_spec (read_size_t (arg argv ARG_COEFFS) ncoeffs0) 4).
      * left. split; auto.
      * right. cbn [fst snd]. split; [assumption | reflexivity].
  - reflexivity.
Qed.

(* ===================================================================== *)
(** ** Further properties: what a run does to the files *)
(* ===================================================================== *)

Lemma header_stage_unwritable (argv : list string) (fs : FileSystem) (u : Uninit)
    (header : istream) :
  unwritable (final_fs (header_stage argv fs u header)) = unwritable fs.
Proof.
  unfold header_stage, open_out.
  destruct (decide (CalHDR argv ∈ unwritable fs)); simpl;
    destruct (copy_header _ _); reflexivity.
Qed.

(** A run leaves the files as they were, or it has got through the
    calibration loop and ends in the last stage. *)
Lemma main_final_fs (argv : list string) (fs : FileSystem) (u : Uninit) :
  final_fs (main argv fs u) = fs \/
  (outcome (main argv fs u) = Exit 0 /\
   exists header written,
     (CalDAT argv ∉ unwritable fs) /\
     final_fs (main argv fs u)
     = final_fs (header_stage argv
                   (FS (<[CalDAT argv := written]>
                          (<[CalDAT argv := EmptyString]> (files fs)))
                       (unwritable fs))
                   u header)).
Proof.
  unfold main.
  destruct (negb _ && negb _); [left; reflexivity |].
  destruct (getNumCoefficients argv (u_ncoeffs u)) as [ncoeffs said].
  rewrite !outcome_emit, !final_fs_emit. unfold metadata_stage.
  destruct (open_in fs (SpectrumHDR argv)) as [file |]; [| left; reflexivity].
  rewrite outcome_emit, final_fs_emit.
  pose proof (read_grid_ends file (open_stream file) u eq_refl) as [_ Hgood].
  destruct (read_grid file (open_stream file) u) as [header [g | c | |]];
    cbn [snd fst] in Hgood; try (left; reflexivity).
  specialize (Hgood g eq_refl).
  destruct (numPts g) as [pts |]; [| left; reflexivity].
  rewrite outcome_emit, final_fs_emit. unfold response_stage.
  destruct (open_in fs (arg argv ARG_RESPONSE)) as [content |];
    [| left; reflexivity].
  destruct (load_response content u) as [r |]; [| left; reflexivity].
  rewrite outcome_emit, final_fs_emit. unfold fit_stage.
  destruct (xVec r !! O) as [xmin |]; [| left; reflexivity].
  destruct (xVec r !! _) as [xmax |]; [| left; reflexivity].
  destruct (Z.of_nat (n r) <=? ncoeffs); [left; reflexivity |].
  destruct (gsl_fit _ _ _ _ _ _ _) as [m |]; [| left; reflexivity].
  rewrite outcome_emit, final_fs_emit. unfold calibration_stage.
  destruct (open_in fs (SpectrumDAT argv)); [| left; reflexivity].
  unfold open_out.
  destruct (decide (CalDAT argv ∈ unwritable fs)) as [Hw | Hw];
    [left; reflexivity |].
  rewrite outcome_emit, final_fs_emit, header_stage_exit
    by now apply good_failbit.
  right. split; [reflexivity |]. eexists _, _. split; [exact Hw | reflexivity].
Qed.

(** X3.  A run that does not exit with status 0 leaves every file as it was. *)
Lemma main_failure_writes_nothing (argv : list string) (fs : FileSystem) (u : Uninit) :
  outcome (main argv fs u) <> Exit 0 -> final_fs (main argv fs u) = fs.
Proof.
  intros Hfail.
  destruct (main_final_fs argv fs u) as [Hfs | [Hok _]].
  - exact Hfs.
  - contradiction.
Qed.

(** X4.  No run touches a file other than the two output files, and none changes
    which files can be written. *)
Lemma main_frame (argv : list string) (fs : FileSystem) (u : Uninit) (p : string) :
  p <> CalDAT argv ->
  p <> CalHDR argv ->
  files (final_fs (main argv fs u)) !! p = files fs !! p /\
  unwritable (final_fs (main argv fs u)) = unwritable fs.
Proof.
  intros Hdat Hhdr.
  destruct (main_final_fs argv fs u)
    as [-> | (_ & header & written & _ & ->)]; [auto |].
  rewrite header_stage_unwritable, header_stage_other by assumption.
  cbn [files unwritable]. now rewrite !lookup_insert_ne by auto.
Qed.

(** X5.  On regular files that are read without I/O errors, whatever their
    bytes, and with GSL calls that return or abort: every run ends, with
    exit status 0 or 1, by an abort, or with an undefined operation.  None
    of the three loops that test only [eof ()] (header scan, response
    loader, header copy) hangs on such a file. *)
Lemma main_outcomes (argv : list string) (fs : FileSystem) (u : Uninit) :
  outcome (main argv fs u) = Exit 0 \/ outcome (main argv fs u) = Exit 1 \/
  outcome (main argv fs u) = Aborted \/ outcome (main argv fs u) = Undefined.
Proof.
  unfold main.
  destruct (negb _ && negb _); [auto |].
  destruct (getNumCoefficients argv (u_ncoeffs u)) as [ncoeffs said].
  rewrite !outcome_emit. unfold metadata_stage.
  destruct (open_in fs (SpectrumHDR argv)) as [file |]; [| auto].
  rewrite outcome_emit.
  pose proof (read_grid_ends file (open_stream file) u eq_refl) as [Hloop Hgood].
  destruct (read_grid file (open_stream file) u) as [header [g | c | |]];
    cbn [snd fst] in Hloop, Hgood; auto; [| congruence].
  specialize (Hgood g eq_refl).
  destruct (numPts g) as [pts |]; [| auto].
  rewrite outcome_emit. unfold response_stage.
  destruct (open_in fs (arg argv ARG_RESPONSE)) as [content |]; [| auto].
  destruct (load_response_total content u) as [r ->].
  rewrite outcome_emit. unfold fit_stage.
  destruct (xVec r !! O); [| auto].
  destruct (xVec r !! _); [| auto].
  destruct (Z.of_nat (n r) <=? ncoeffs); [auto |].
  destruct (gsl_fit _ _ _ _ _ _ _); [| auto].
  rewrite outcome_emit. unfold calibration_stage.
  destruct (open_in fs (SpectrumDAT argv)); [| auto].
  destruct (open_out fs (CalDAT argv)); [| auto].
  rewrite outcome_emit, header_stage_exit by now apply good_failbit.
  auto.
Qed.

(** [xVec[xVec.size () - 1]] is in bounds whenever [xVec[0]] is. *)
Lemma back_some (v : list double) (x : double) :
  v !! O = Some x ->
  is_Some (v !! Z.to_nat ((Z.of_nat (length v) - 1) mod 2 ^ 64)).
Proof.
  clear num_get gsl_fit gsl_est SplineFit.
  intros H. apply lookup_lt_is_Some.
  assert (Hlen : (0 < length v)%nat) by (apply lookup_lt_is_Some; eauto).
  pose proof (Z.mod_le (Z.of_nat (length v) - 1) (2 ^ 64)) as Hle.
  pose proof (Z.mod_pos_bound (Z.of_nat (length v) - 1) (2 ^ 64)) as Hpos.
  lia.
Qed.

(** The runs that execute an undefined operation: the header is read and
    [npo] does not fit an [int] (the cast of line 206), or the response file
    is read and holds no sample ([xVec[0]] of line 239). *)
Lemma main_undefined_iff (argv : list string) (fs : FileSystem) (u : Uninit) :
  outcome (main argv fs u) = Undefined <->
  (length argv = 4 \/ length argv = 5)%nat /\
  exists g,
    grid_read argv fs u = Some g /\
    (numPts g = None \/
     exists r, response_loaded argv fs u = Some r /\ xVec r = []).
Proof.
  unfold main, grid_read, response_loaded.
  assert (Hargs : negb (length argv =? REQUIRED_NUM_ARGS_MODE1)%nat
                  && negb (length argv =? REQUIRED_NUM_ARGS_MODE2)%nat = false
                  <-> (length argv = 4 \/ length argv = 5)%nat).
  { unfold REQUIRED_NUM_ARGS_MODE1, REQUIRED_NUM_ARGS_MODE2.
    destruct (Nat.eqb_spec (length argv) 4), (Nat.eqb_spec (length argv) 5);
      cbn [negb andb]; split; auto; try discriminate; intros [? | ?]; lia. }
  destruct (negb _ && negb _).
  { split; [discriminate | intros [Hl _]; apply Hargs in Hl; discriminate]. }
  assert (Hlen : (length argv = 4 \/ length argv = 5)%nat) by now apply Hargs.
  clear Hargs.
  destruct (getNumCoefficients argv (u_ncoeffs u)) as [ncoeffs said].
  rewrite !outcome_emit. unfold metadata_stage.
  destruct (open_in fs (SpectrumHDR argv)) as [file |];
    [| split; [discriminate | intros (_ & g & [=] & _)]].
  rewrite outcome_emit.
  pose proof (read_grid_ends file (open_stream file) u eq_refl) as [_ Hgood].
  destruct (read_grid file (open_stream file) u) as [header [g | c | |]];
    cbn [snd fst] in *;
    try (split; [discriminate | intros (_ & g' & [=] & _)]).
  specialize (Hgood g eq_refl).
  destruct (numPts g) as [pts |] eqn:Epts.
  2: { split; [intros _ | reflexivity].
       split; [exact Hlen |]. exists g. split; [reflexivity | now left]. }
  rewrite outcome_emit. unfold response_stage.
  destruct (open_in fs (arg argv ARG_RESPONSE)) as [content |].
  2: { split; [discriminate |].
       intros (_ & g' & [= <-] & [Hn | (r & [=] & _)]). congruence. }
  destruct (load_response content u) as [r |].
  2: { split; [discriminate |].
       intros (_ & g' & [= <-] & [Hn | (r & [=] & _)]). congruence. }
  rewrite outcome_emit. unfold fit_stage.
  destruct (xVec r !! O) as [xmin |] eqn:Emin.
  2: { split; [intros _ | reflexivity].
       split; [exact Hlen |]. exists g. split; [reflexivity | right].
       exists r. split; [reflexivity |].
       destruct (xVec r); [reflexivity | discriminate]. }
  destruct (back_some (xVec r) xmin Emin) as [xmax ->].
  split.
  - intros Hout. exfalso. revert Hout.
    destruct (Z.of_nat (n r) <=? ncoeffs); [discriminate |].
    destruct (gsl_fit _ _ _ _ _ _ _); [| discriminate].
    rewrite outcome_emit. unfold calibration_stage.
    destruct (open_in fs (SpectrumDAT argv)); [| discriminate].
    destruct (open_out fs (CalDAT argv)); [| discriminate].
    rewrite outcome_emit, header_stage_exit by now apply good_failbit.
    discriminate.
  - intros (_ & g' & [= <-] & [Hn | (r' & [= <-] & Hnil)]); [congruence |].
    rewrite Hnil in Emin. discriminate.
Qed.

(** X6.  What success depends on.  A run returns 0 without having executed
    an undefined operation (the cast to [int] of a sample count out of
    range, [xVec[0]] on an empty vector) exactly when: the argument count is
    right, the four header fields are read and the sample count fits an
    [int], the response file yields at least one sample and more samples
    than coefficients, the fit does not abort, the spectrum opens and the
    output spectrum can be created; whether the output header can be created
    plays no part.  A run executes one of the two undefined operations
    exactly when the header is read and either the sample count does not fit
    an [int] or the response file is read and yields no sample: of the exit
    status of such a run nothing is stated. *)
Lemma main_exit_0_iff (argv : list string) (fs : FileSystem) (u : Uninit) :
  (outcome (main argv fs u) = Exit 0 <->
   (length argv = 4 \/ length argv = 5)%nat /\
   exists g pts r xmin xmax,
     grid_read argv fs u = Some g /\
     numPts g = Some pts /\
     response_loaded argv fs u = Some r /\
     front (xVec r) = Some xmin /\
     back (xVec r) = Some xmax /\
     coefficients argv u < Z.of_nat (n r) /\
     is_Some (gsl_fit (coefficients argv u) ((coefficients argv u - 2) mod 2 ^ 64)
                (n r) (xVec r) (yVec r) xmin xmax) /\
     is_Some (open_in fs (SpectrumDAT argv)) /\
     CalDAT argv ∉ unwritable fs) /\
  (outcome (main argv fs u) = Undefined <->
   (length argv = 4 \/ length argv = 5)%nat /\
   exists g,
     grid_read argv fs u = Some g /\
     (numPts g = None \/
      exists r, response_loaded argv fs u = Some r /\ xVec r = [])).
Proof.
  split; [| apply main_undefined_iff].
  unfold main, coefficients, grid_read, response_loaded, front, back.
  destruct (Nat.eqb_spec (length argv) REQUIRED_NUM_ARGS_MODE1) as [E4 | E4];
    destruct (Nat.eqb_spec (length argv) REQUIRED_NUM_ARGS_MODE2) as [E5 | E5];
    cbn [negb andb];
    try (split; [discriminate |];
         unfold REQUIRED_NUM_ARGS_MODE1, REQUIRED_NUM_ARGS_MODE2 in *;
         intros [[? | ?] _]; congruence).
  all: destruct (getNumCoefficients argv (u_ncoeffs u)) as [ncoeffs said];
    cbn [fst]; rewrite !outcome_emit; unfold metadata_stage.
  all: destruct (open_in fs (SpectrumHDR argv)) as [file |];
    [| split; [discriminate | intros (_ & ? & ? & ? & ? & ? & [=] & _)]].
  all: rewrite outcome_emit;
    pose proof (read_grid_ends file (open_stream file) u eq_refl) as [_ Hgood];
    destruct (read_grid file (open_stream file) u) as [header [g | c | |]];
    cbn [snd fst] in *;
    try (split; [discriminate | intros (_ & ? & ? & ? & ? & ? & [=] & _)]).
  all: specialize (Hgood g eq_refl).
  all: destruct (numPts g) as [pts |] eqn:Epts;
    [| split; [discriminate
              | intros (_ & ? & ? & ? & ? & ? & [= <-] & ? & _); congruence]].
  all: rewrite outcome_emit; unfold response_stage.
  all: destruct (open_in fs (arg argv ARG_RESPONSE)) as [content |];
    [| split; [discriminate | intros (_ & ? & ? & ? & ? & ? & _ & _ & [=] & _)]].
  all: destruct (load_response content u) as [r |];
    [| split; [discriminate | intros (_ & ? & ? & ? & ? & ? & _ & _ & [=] & _)]].
  all: rewrite outcome_emit; unfold fit_stage.
  all: destruct (xVec r !! O) as [xmin |] eqn:Emin;
    [| split; [discriminate
              | intros (_ & ? & ? & ? & ? & ? & _ & _ & [= <-] & ? & _); congruence]].
  all: destruct (xVec r !! Z.to_nat ((Z.of_nat (length (xVec r)) - 1) mod 2 ^ 64))
         as [xmax |] eqn:Emax;
    [| split; [discriminate
              | intros (_ & ? & ? & ? & ? & ? & _ & _ & [= <-] & _ & ? & _);
                congruence]].
  all: destruct (Z.leb_spec (Z.of_nat (n r)) ncoeffs) as [Hle | Hlt];
    [split; [discriminate
            | intros (_ & ? & ? & ? & ? & ? & _ & _ & [= <-] & _ & _ & ? & _); lia] |].
  all: destruct (gsl_fit ncoeffs ((ncoeffs - 2) mod 2 ^ 64) (n r) (xVec r) (yVec r)
                   xmin xmax) as [m |] eqn:Efit;
    [| split; [discriminate
              | intros (_ & g' & pts' & r' & xmin' & xmax' & _ & _ & [= <-] & Ha & Hb
                        & _ & Hfit & _);
                assert (xmin = xmin') as <- by congruence;
                assert (xmax = xmax') as <- by congruence;
                rewrite Efit in Hfit; now destruct Hfit]].
  all: rewrite outcome_emit; unfold calibration_stage.
  all: destruct (open_in fs (SpectrumDAT argv)) as [spectrum |];
    [| split; [discriminate
              | intros (_ & ? & ? & ? & ? & ? & _ & _ & _ & _ & _ & _ & _ & Hs & _);
                now destruct Hs]].
  all: unfold open_out;
    destruct (decide (CalDAT argv ∈ unwritable fs)) as [Hw | Hw];
    [split; [discriminate
            | intros (_ & ? & ? & ? & ? & ? & _ & _ & _ & _ & _ & _ & _ & _ & Hn);
              contradiction] |].
  all: rewrite outcome_emit, header_stage_exit by now apply good_failbit.
  all: split; [intros _ | reflexivity].
  all: (split; [unfold REQUIRED_NUM_ARGS_MODE1, REQUIRED_NUM_ARGS_MODE2 in *; auto |]).
  all: exists g, pts, r, xmin, xmax; repeat split; eauto.
Qed.

(** X7.  When the output header cannot be opened, a run that has got that far
    still exits with status 0, and the path of the output header holds what
    it held before. *)
Lemma unwritable_header_goes_unnoticed
    (argv : list string) (fs : FileSystem) (u : Uninit) :
  outcome (main argv fs u) = Exit 0 ->
  CalHDR argv ∈ unwritable fs ->
  files (final_fs (main argv fs u)) !! CalHDR argv = files fs !! CalHDR argv.
Proof.
  intros H Hw.
  destruct (main_exit_0 argv fs u H)
    as (file & header & g & pts & content & r & xmin & xmax & m & fs1
        & _ & _ & _ & _ & _ & _ & _ & _ & _ & Eout & ->).
  rewrite (open_out_some _ _ _ Eout).
  unfold header_stage, open_out. cbn [unwritable close_out].
  destruct (decide (CalHDR argv ∈ unwritable fs)); [| contradiction].
  cbn [default]. destruct (copy_header _ _); cbn;
    (rewrite !lookup_insert_ne; [reflexivity | ..]);
    unfold CalDAT, CalHDR; intros E; apply append_inj_l in E; discriminate.
Qed.

(** X8.  When the output name is the name of the spectrum, a successful run
    leaves the header, which is then input and output at once, empty. *)
Lemma output_onto_input_empties_header
    (argv : list string) (fs : FileSystem) (u : Uninit) :
  outcome (main argv fs u) = Exit 0 ->
  arg argv ARG_OUTPUT = arg argv ARG_SPECTRUM ->
  CalHDR argv ∉ unwritable fs ->
  files (final_fs (main argv fs u)) !! SpectrumHDR argv = Some EmptyString.
Proof.
  intros H Hsame Hw.
  assert (Ehdr : SpectrumHDR argv = CalHDR argv)
    by (unfold SpectrumHDR, CalHDR; now rewrite Hsame).
  destruct (main_exit_0 argv fs u H)
    as (file & header & g & pts & content & r & xmin & xmax & m & fs1
        & Efile & Egrid & _ & _ & _ & _ & _ & _ & _ & Eout & ->).
  pose proof (read_grid_ends file (open_stream file) u eq_refl) as [_ Hgood].
  rewrite Egrid in Hgood. specialize (Hgood g eq_refl). cbn [fst] in Hgood.
  apply good_failbit in Hgood.
  rewrite (open_out_some _ _ _ Eout), Ehdr.
  rewrite header_stage_copy by assumption.
  unfold bytes_at. cbn [files]. rewrite Ehdr, lookup_insert_eq. reflexivity.
Qed.

(* ===================================================================== *)
(** ** Further properties: the grid metadata reader *)
(* ===================================================================== *)

(** X11.  A field that no newline-terminated line names is reported as not found,
    whatever follows the last newline. *)
Lemma getXGremlinHeaderField_missing
    (FieldName : string) (pre : list string) (tail : string)
    (Header : istream) (ReturnValue : double) :
  FieldName <> EmptyString ->
  Forall (other_line FieldName) pre ->
  no_newline tail = true ->
  failbit Header = false ->
  snd (getXGremlinHeaderField (unlines pre +:+ tail) Header FieldName ReturnValue)
  = Thrown 1.
Proof.
  intros Hne Hpre Htail Hfail. unfold getXGremlinHeaderField.
  rewrite (seekg_beg_usable _ _ Hfail). change (pending (open_stream ?f)) with f.
  rewrite scan_fuel.
  destruct (scan_header_skips FieldName pre Hpre
              (S (slength (unlines pre +:+ tail) - length pre))
              tail EmptyString EmptyString)
    as (L & N & HN & ->); [congruence |].
  cbn [scan_header]. rewrite (getline_unterminated _ _ Htail).
  cbn [eofbit negb]. rewrite andb_false_r. reflexivity.
Qed.

(** X12.  The line that names the field is shorter than nine characters: [substr]
    throws [std::out_of_range], which the [throw (int)] specification does
    not let through, and the program is terminated. *)
Lemma getXGremlinHeaderField_short_line
    (FieldName : string) (pre : list string) (line post : string)
    (Header : istream) (ReturnValue : double) :
  FieldName <> EmptyString ->
  Forall (other_line FieldName) pre ->
  no_newline line = true ->
  first_token line EmptyString = FieldName ->
  failbit Header = false ->
  (slength line < 9)%nat ->
  snd (getXGremlinHeaderField (unlines pre +:+ line +:+ String newline post)
         Header FieldName ReturnValue)
  = Terminated.
Proof.
  intros Hne Hpre Hnl Hline Hfail Hlen.
  unfold getXGremlinHeaderField.
  rewrite (seekg_beg_usable _ _ Hfail). change (pending (open_stream ?f)) with f.
  rewrite (scan_header_finds FieldName pre line post Hne Hpre Hnl Hline).
  change (eofbit (open_stream post)) with false. cbv beta iota. simpl negb.
  unfold substr.
  destruct (Nat.ltb_spec (slength line) 9) as [_ | Hge]; [reflexivity | lia].
Qed.

(** X13.  The line that names the field holds no number in columns 9 to 31: when
    the columns are blank the value returned is whatever the uninitialised
    [ReturnValue] held; when they hold something that is not a number the
    value returned is zero. *)
Lemma getXGremlinHeaderField_no_number
    (FieldName : string) (pre : list string) (line post : string)
    (Header : istream) (ReturnValue : double) :
  FieldName <> EmptyString ->
  Forall (other_line FieldName) pre ->
  no_newline line = true ->
  first_token line EmptyString = FieldName ->
  failbit Header = false ->
  (9 <= slength line)%nat ->
  (skipws (columns 9 31 line) = EmptyString ->
   snd (getXGremlinHeaderField (unlines pre +:+ line +:+ String newline post)
          Header FieldName ReturnValue)
   = Returned ReturnValue) /\
  (forall c t,
     skipws (columns 9 31 line) = String c t ->
     num_get (String c t) = None ->
     snd (getXGremlinHeaderField (unlines pre +:+ line +:+ String newline post)
            Header FieldName ReturnValue)
     = Returned D.zero).
Proof.
  intros Hne Hpre Hnl Hline Hfail Hlen.
  unfold getXGremlinHeaderField.
  rewrite (seekg_beg_usable _ _ Hfail). change (pending (open_stream ?f)) with f.
  rewrite (scan_header_finds FieldName pre line post Hne Hpre Hnl Hline).
  change (eofbit (open_stream post)) with false. cbv beta iota. simpl negb.
  unfold substr.
  destruct (Nat.ltb_spec (slength line) 9) as [Hlt | _]; [lia |].
  unfold extract_double, columns. simpl Nat.sub. split.
  - intros ->. reflexivity.
  - intros c t -> ->. reflexivity.
Qed.

(** Each call scans the file again from its start: the result does not
    depend on where earlier calls left the stream. *)
Lemma getXGremlinHeaderField_rescans (file : string) (Header : istream)
    (FieldName : string) (ReturnValue : double) :
  failbit Header = false ->
  getXGremlinHeaderField file Header FieldName ReturnValue
  = getXGremlinHeaderField file (open_stream file) FieldName ReturnValue.
Proof.
  intros Hf. unfold getXGremlinHeaderField.
  now rewrite (seekg_beg_usable _ _ Hf), (seekg_beg_usable file (open_stream file)).
Qed.

(** [read_grid] as a sequence of four lookups in the whole file. *)
Lemma read_grid_and_then (file : string) (header : istream) (u : Uninit) :
  failbit header = false ->
  snd (read_grid file header u)
  = and_then (lookup_field file u XMIN_TAG) (fun wstart =>
    and_then (lookup_field file u XMAX_TAG) (fun wstop =>
    and_then (lookup_field file u DELTAX_TAG) (fun delw =>
    and_then (lookup_field file u NUM_PTS_TAG) (fun npo =>
    Returned (Grid wstart wstop delw (double_to_int npo)))))).
Proof.
  intros Hf. unfold read_grid, lookup_field.
  repeat
    match goal with
    | |- context [getXGremlinHeaderField file ?h ?fld ?rv] =>
        lazymatch h with
        | open_stream file => fail
        | _ =>
            let Hx := fresh "Hx" in
            assert (Hx : failbit h = false) by
              (first [ assumption | apply good_failbit; assumption ]);
            let Hg := fresh "Hg" in
            pose proof (proj2 (getXGremlinHeaderField_ends file h fld rv Hx)) as Hg;
            rewrite (getXGremlinHeaderField_rescans file h fld rv Hx) in Hg |- *;
            destruct (getXGremlinHeaderField file (open_stream file) fld rv)
              as [? [? | ? | |]];
            cbn [snd fst and_then] in Hg |- *; try reflexivity;
            specialize (Hg _ eq_refl); clear Hx
        end
    end.
Qed.

(** X14.  The four fields are looked up one after the other, each by a scan
    of the whole file from its start: what a lookup returns does not depend
    on where the lookups before it left the stream, it is what a call on a
    stream just opened on the file returns; and the first lookup that does
    not return decides the result. *)
Lemma read_grid_lookups (file : string) (header : istream) (u : Uninit) :
  failbit header = false ->
  snd (read_grid file header u) = snd (read_grid file (open_stream file) u) /\
  snd (read_grid file header u)
  = and_then (lookup_field file u XMIN_TAG) (fun wstart =>
    and_then (lookup_field file u XMAX_TAG) (fun wstop =>
    and_then (lookup_field file u DELTAX_TAG) (fun delw =>
    and_then (lookup_field file u NUM_PTS_TAG) (fun npo =>
    Returned (Grid wstart wstop delw (double_to_int npo)))))).
Proof.
  intros Hf. split.
  - rewrite (read_grid_and_then file header u Hf).
    now rewrite (read_grid_and_then file (open_stream file) u eq_refl).
  - exact (read_grid_and_then file header u Hf).
Qed.

(** A lookup returns a value, throws 1, or is terminated. *)
Lemma lookup_field_cases (file : string) (u : Uninit) (tag : string) :
  (exists v, lookup_field file u tag = Returned v) \/
  lookup_field file u tag = Thrown 1 \/
  lookup_field file u tag = Terminated.
Proof.
  unfold lookup_field, getXGremlinHeaderField.
  rewrite (seekg_beg_usable file (open_stream file) eq_refl).
  change (pending (open_stream file)) with file.
  destruct (scan_header_total (S (slength file)) (open_stream file) tag
              EmptyString EmptyString eq_refl) as (H & L & N & -> & _);
    [simpl; lia |].
  destruct (eofbit H); cbn [negb]; [auto |].
  destruct (substr L 9 23); cbn [snd]; eauto.
Qed.

(** X15.  If one of the four fields is not found and no lookup is terminated, the
    run prints the header error, exits with status 1 and writes nothing. *)
Lemma missing_field_exit_1 (argv : list string) (fs : FileSystem) (u : Uninit)
    (file tag : string) :
  (length argv = 4 \/ length argv = 5)%nat ->
  open_in fs (SpectrumHDR argv) = Some file ->
  tag ∈ [XMIN_TAG; XMAX_TAG; DELTAX_TAG; NUM_PTS_TAG] ->
  lookup_field file u tag = Thrown 1 ->
  (forall t, t ∈ [XMIN_TAG; XMAX_TAG; DELTAX_TAG; NUM_PTS_TAG] ->
             lookup_field file u t <> Terminated) ->
  outcome (main argv fs u) = Exit 1 /\
  final_fs (main argv fs u) = fs /\
  last (trace (main argv fs u)) = Some (Print (ErrHeaderData (SpectrumHDR argv))).
Proof.
  intros Hargc Efile Htag Hthrown Hterm.
  assert (Hgrid : snd (read_grid file (open_stream file) u) = Thrown 1).
  { rewrite read_grid_and_then by reflexivity.
    assert (H1 := Hterm XMIN_TAG ltac:(repeat constructor)).
    assert (H2 := Hterm XMAX_TAG ltac:(repeat constructor)).
    assert (H3 := Hterm DELTAX_TAG ltac:(repeat constructor)).
    assert (H4 := Hterm NUM_PTS_TAG ltac:(repeat constructor)).
    destruct (lookup_field_cases file u XMIN_TAG) as [[a Ea] | [Ea | Ea]];
      [| now rewrite Ea | contradiction].
    destruct (lookup_field_cases file u XMAX_TAG) as [[b Eb] | [Eb | Eb]];
      [| now rewrite Ea, Eb | contradiction].
    destruct (lookup_field_cases file u DELTAX_TAG) as [[c Ec] | [Ec | Ec]];
      [| now rewrite Ea, Eb, Ec | contradiction].
    destruct (lookup_field_cases file u NUM_PTS_TAG) as [[d Ed] | [Ed | Ed]];
      [| now rewrite Ea, Eb, Ec, Ed | contradiction].
    exfalso. repeat (apply elem_of_cons in Htag as [-> | Htag]; [congruence |]).
    now apply elem_of_nil in Htag. }
  unfold main.
  replace (negb (length argv =? REQUIRED_NUM_ARGS_MODE1)%nat
           && negb (length argv =? REQUIRED_NUM_ARGS_MODE2)%nat)
    with false by (destruct Hargc as [-> | ->]; reflexivity).
  destruct (getNumCoefficients argv (u_ncoeffs u)) as [ncoeffs said].
  rewrite !outcome_emit, !final_fs_emit, !trace_emit. unfold metadata_stage.
  rewrite Efile, outcome_emit, final_fs_emit, trace_emit.
  destruct (read_grid file (open_stream file) u) as [header t].
  cbn [snd] in Hgrid. subst t. cbn [outcome final_fs trace fst snd].
  repeat split. rewrite !app_assoc. apply last_snoc.
Qed.

(* ===================================================================== *)
(** ** Further properties: the response sample loader *)
(* ===================================================================== *)

Lemma take_line_newlines (s l rest : string) (d : bool) :
  take_line s = (l, rest, d) ->
  newlines s = if d then S (newlines rest) else O.
Proof.
  revert l. induction s as [|c s IH]; simpl; intros l H.
  - now injection H as _ _ <-.
  - destruct (Ascii.eqb c newline).
    + now injection H as _ <- <-.
    + destruct (take_line s) as [[l' r'] d']. injection H as _ <- <-.
      exact (IH l' eq_refl).
Qed.

(** The loop adds one sample for the line it is entered with and one for
    each newline still to be read. *)
Lemma load_loop_newlines (fuel : nat) :
  forall (calData : istream) (LineString : string) (xi yi : double)
         (r r' : Response),
    load_loop fuel calData LineString xi yi r = Some r' ->
    good calData = true ->
    n r' = (n r + S (newlines (pending calData)))%nat.
Proof.
  induction fuel as [|fuel IH]; intros calData LineString xi yi r r' H Hg;
    [discriminate |].
  cbn [load_loop] in H.
  assert (He : eofbit calData = false).
  { unfold good in Hg. apply andb_true_iff in Hg as [Hg _].
    now apply negb_true_iff in Hg. }
  rewrite He in H.
  destruct (extract_double (Some LineString) xi) as [iss xi'].
  destruct (extract_double iss yi) as [iss' yi'].
  unfold getline in H. rewrite Hg in H.
  destruct (take_line (pending calData)) as [[l rest] d] eqn:E.
  rewrite (take_line_newlines _ _ _ _ E).
  destruct d.
  - apply IH in H; [| reflexivity]. cbn [n pending] in H. lia.
  - destruct fuel as [|fuel]; [discriminate |].
    cbn [load_loop eofbit] in H. injection H as <-. cbn [n]. lia.
Qed.

(** X16.  For every response file, whatever its lines hold: the number of samples
    loaded is the number of newline characters in the file, and the two
    sequences and the counter keep the same length. *)
Lemma load_response_counts_newlines (content : string) (u : Uninit) :
  exists r,
    load_response content u = Some r /\
    n r = newlines content /\
    length (xVec r) = n r /\
    length (yVec r) = n r.
Proof.
  destruct (load_response_total content u) as [r Hr]. exists r.
  split; [exact Hr |].
  assert (Hlen : length (xVec r) = n r /\ length (yVec r) = n r).
  { clear -Hr. unfold load_response in Hr.
    destruct (getline (open_stream content) EmptyString) as [calData L].
    revert Hr. generalize (S (slength content)) (u_xi u) (u_yi u).
    assert (Hinit : length (xVec (Loaded O [] [] [])) = n (Loaded O [] [] [])
                    /\ length (yVec (Loaded O [] [] [])) = n (Loaded O [] [] []))
      by (split; reflexivity).
    revert Hinit. generalize (Loaded O [] [] []). intros r0 Hinit fuel.
    revert calData L r0 Hinit.
    induction fuel as [|fuel IH]; intros calData L r0 [Hx Hy] xi yi H;
      [discriminate |].
    cbn [load_loop] in H. destruct (eofbit calData).
    - injection H as <-. auto.
    - destruct (extract_double (Some L) xi) as [iss xi'].
      destruct (extract_double iss yi) as [iss' yi'].
      destruct (getline calData L) as [calData' L'].
      eapply IH; [| exact H]. cbn [n xVec yVec].
      rewrite !length_app. simpl. lia. }
  split; [| exact Hlen].
  unfold load_response in Hr. unfold getline in Hr.
  change (good (open_stream content)) with true in Hr. cbv iota in Hr.
  change (pending (open_stream content)) with content in Hr.
  destruct (take_line content) as [[l rest] d] eqn:E.
  rewrite (take_line_newlines _ _ _ _ E).
  destruct d.
  - apply load_loop_newlines in Hr; [| reflexivity]. exact Hr.
  - cbn [load_loop eofbit] in Hr. now injection Hr as <-.
Qed.

(** With the text of line [l] in [LineString] and the lines [ls] then [tail]
    still to read, the loop adds the pairs [pushed xi yi (l :: ls)]. *)
Lemma load_loop_lines (ls : list ResponseLine) :
  forall (fuel : nat) (l : ResponseLine) (tail : string) (xi yi : double)
         (r : Response),
    Forall well_formed_line (l :: ls) ->
    no_newline tail = true ->
    (length ls + 2 <= fuel)%nat ->
    load_loop fuel (open_stream (unlines (map line_text ls) +:+ tail))
      (line_text l) xi yi r
    = Some (Loaded (n r + S (length ls))
              (xVec r ++ (pushed xi yi (l :: ls)).*1)
              (yVec r ++ (pushed xi yi (l :: ls)).*2)
              (printed r ++ map sample_event (pushed xi yi (l :: ls)))).
Proof.
  induction ls as [|l' ls IH]; intros fuel l tail xi yi r Hall Htail Hfuel;
    inversion Hall as [|? ? Hl Hrest]; subst;
    destruct fuel as [|fuel]; try (simpl in Hfuel; lia);
    cbn [load_loop]; change (eofbit (open_stream ?c)) with false; cbv iota.
  - assert (Hstep :
      exists iss',
        extract_double (Some (line_text l)) xi
        = (iss', fst (hd (xi, yi) (pushed xi yi [l]))) /\
        snd (extract_double iss' yi) = snd (hd (xi, yi) (pushed xi yi [l]))).
    { destruct l as [w | text]; cbn [line_text pushed hd fst snd].
      - destruct Hl as [_ Hpair].
        destruct (extract_pair _ _ _ xi yi Hpair) as (r1 & r2 & -> & E2).
        exists (Some r1). now rewrite E2.
      - destruct Hl as [_ Hblank]. unfold extract_double. rewrite Hblank.
        exists None. split; reflexivity. }
    destruct Hstep as (iss' & -> & Hy).
    destruct (extract_double iss' yi) as [iss'' yi']. cbn [snd] in Hy. subst yi'.
    simpl unlines. rewrite append_nil, (getline_unterminated _ _ Htail).
    destruct fuel as [|fuel]; [simpl in Hfuel; lia |].
    cbn [load_loop eofbit].
    destruct l as [w | text]; cbn [pushed hd fst snd length map fmap list_fmap];
      do 2 f_equal; lia.
  - assert (Hstep :
      exists iss',
        extract_double (Some (line_text l)) xi
        = (iss', fst (hd (xi, yi) (pushed xi yi [l]))) /\
        snd (extract_double iss' yi) = snd (hd (xi, yi) (pushed xi yi [l]))).
    { destruct l as [w | text]; cbn [line_text pushed hd fst snd].
      - destruct Hl as [_ Hpair].
        destruct (extract_pair _ _ _ xi yi Hpair) as (r1 & r2 & -> & E2).
        exists (Some r1). now rewrite E2.
      - destruct Hl as [_ Hblank]. unfold extract_double. rewrite Hblank.
        exists None. split; reflexivity. }
    destruct Hstep as (iss' & -> & Hy).
    destruct (extract_double iss' yi) as [iss'' yi']. cbn [snd] in Hy. subst yi'.
    simpl map. simpl unlines. rewrite append_assoc, append_cons.
    assert (Hnl' : no_newline (line_text l') = true).
    { inversion Hrest as [|? ? Hl' _]; subst.
      destruct l' as [w | text]; [apply Hl' | apply Hl']. }
    rewrite (getline_terminated _ _ _ Hnl').
    rewrite (IH fuel l' tail); [| assumption .. |]; [| simpl in Hfuel; lia].
    cbn [n xVec yVec printed].
    destruct l as [w | text]; cbn [pushed hd fst snd length map fmap list_fmap];
      rewrite <- ?app_assoc; cbn [app]; do 2 f_equal; lia.
Qed.

(** X17.  A response file made of newline-terminated lines that hold two numbers
    or only white space, followed by anything without a newline: every such
    line adds one sample, a data line its pair and a blank line a copy of
    the pair before it (the uninitialised [xi], [yi] when nothing came
    before); what follows the last newline, data or not, is not loaded. *)
Lemma load_response_lines (ls : list ResponseLine) (tail : string) (u : Uninit) :
  Forall well_formed_line ls ->
  no_newline tail = true ->
  exists r,
    load_response (unlines (map line_text ls) +:+ tail) u = Some r /\
    n r = length ls /\
    xVec r = (pushed (u_xi u) (u_yi u) ls).*1 /\
    yVec r = (pushed (u_xi u) (u_yi u) ls).*2.
Proof.
  intros Hall Htail. unfold load_response.
  destruct ls as [|l ls].
  - simpl unlines. rewrite append_nil, (getline_unterminated _ _ Htail).
    eexists. split; [reflexivity |]. repeat split; reflexivity.
  - simpl map. simpl unlines. rewrite append_assoc, append_cons.
    assert (Hnl : no_newline (line_text l) = true).
    { inversion Hall as [|? ? Hl _]; subst.
      destruct l as [w | text]; apply Hl. }
    rewrite (getline_terminated _ _ _ Hnl).
    rewrite (load_loop_lines ls _ l tail); [| assumption .. |].
    + eexists. split; [reflexivity |]. repeat split; reflexivity.
    + rewrite slength_append. simpl.
      pose proof (slength_unlines (map line_text ls) tail) as Hl.
      rewrite length_map in Hl. lia.
Qed.

(* ===================================================================== *)
(** ** Further properties: the records of the spectrum *)
(* ===================================================================== *)

Lemma code_bounds (c : ascii) : 0 <= code c < 256.
Proof.
  clear num_get gsl_fit gsl_est SplineFit.
  unfold code. pose proof (Ascii.N_ascii_bounded c). lia.
Qed.

Lemma code_byte_of (b k : Z) :
  0 <= k -> code (byte_of b k) = (b / 2 ^ (8 * k)) mod 256.
Proof.
  clear num_get gsl_fit gsl_est SplineFit.
  intros Hk. unfold code, byte_of.
  change 255 with (Z.ones 8).
  rewrite Z.land_ones, Z.shiftr_div_pow2 by lia.
  change (2 ^ 8) with 256.
  pose proof (Z.mod_pos_bound (b / 2 ^ (8 * k)) 256 ltac:(lia)) as Hm.
  rewrite Ascii.N_ascii_embedding by lia.
  now rewrite Z2N.id by lia.
Qed.

(** The four bytes of a 32-bit pattern give the pattern back. *)
Lemma bits_of_bytes_of_bits (b : Z) :
  0 <= b < 2 ^ 32 -> bits_of_bytes (bytes_of_bits b) = b.
Proof.
  clear num_get gsl_fit gsl_est SplineFit.
  intros Hb. unfold bytes_of_bits. cbn [bits_of_bytes].
  rewrite !code_byte_of by lia.
  change (2 ^ (8 * 0)) with 1. change (2 ^ (8 * 1)) with 256.
  change (2 ^ (8 * 2)) with 65536. change (2 ^ (8 * 3)) with 16777216.
  change (2 ^ 32) with 4294967296 in Hb.
  Z.div_mod_to_equations. lia.
Qed.

Lemma bits_of_bytes_bounds (s : string) :
  0 <= bits_of_bytes s < 256 ^ Z.of_nat (slength s).
Proof.
  clear num_get gsl_fit gsl_est SplineFit.
  induction s as [|c s IH]; cbn [bits_of_bytes slength]; [simpl; lia |].
  rewrite Nat2Z.inj_succ, Z.pow_succ_r by lia.
  pose proof (code_bounds c). lia.
Qed.

(** Four bytes, read as a pattern and written again, are the same bytes. *)
Lemma bytes_of_bits_of_bytes (s : string) :
  slength s = 4%nat -> bytes_of_bits (bits_of_bytes s) = s.
Proof.
  clear num_get gsl_fit gsl_est SplineFit.
  destruct s as [|c0 [|c1 [|c2 [|c3 [|c4 s]]]]]; try discriminate. intros _.
  unfold bytes_of_bits. cbn [bits_of_bytes].
  assert (Hbyte : forall c k v, 0 <= k -> (v / 2 ^ (8 * k)) mod 256 = code c ->
                                byte_of v k = c).
  { intros c k v Hk Hv. rewrite <- (Ascii.ascii_N_embedding c).
    unfold byte_of. f_equal.
    change 255 with (Z.ones 8).
    rewrite Z.land_ones, Z.shiftr_div_pow2 by lia.
    change (2 ^ 8) with 256. rewrite Hv. unfold code. now rewrite N2Z.id. }
  pose proof (code_bounds c0). pose proof (code_bounds c1).
  pose proof (code_bounds c2). pose proof (code_bounds c3).
  f_equal; [| f_equal; [| f_equal; [| f_equal]]]; apply Hbyte; try lia.
  - change (2 ^ (8 * 0)) with 1. Z.div_mod_to_equations. lia.
  - change (2 ^ (8 * 1)) with 256. Z.div_mod_to_equations. lia.
  - change (2 ^ (8 * 2)) with 65536. Z.div_mod_to_equations. lia.
  - change (2 ^ (8 * 3)) with 16777216. Z.div_mod_to_equations. lia.
Qed.

(** Once the spectrum is used up, a read leaves [floatyi] as it is. *)
Lemma floatyi_at_spent (j : nat) :
  forall (s : istream) (obj : Z),
    good s = false \/ pending s = EmptyString ->
    0 <= obj < 2 ^ 32 ->
    floatyi_at j s obj = obj.
Proof.
  assert (Hread : forall (s : istream) (obj : Z),
            good s = false \/ pending s = EmptyString -> 0 <= obj < 2 ^ 32 ->
            snd (read_float s obj) = obj /\ good (fst (read_float s obj)) = false).
  { intros s obj Hs Hobj. unfold read_float.
    destruct (good s) eqn:Hg.
    - destruct Hs as [Hs | Hs]; [discriminate |]. rewrite Hs. cbn.
      split; [now apply bits_of_bytes_of_bits | reflexivity].
    - split; [reflexivity |]. unfold refuse, good. cbn. apply andb_false_r. }
  induction j as [|j IH]; intros s obj Hs Hobj; cbn [floatyi_at].
  - now apply Hread.
  - destruct (Hread s obj Hs Hobj) as [Hv Hg].
    destruct (read_float s obj) as [s' f']. cbn [fst snd] in Hv, Hg. subst f'.
    apply IH; auto.
Qed.

(** A float written by the program is a representation of its value. *)
Lemma written_represents (f : float) :
  represents (bytes_of_bits (F.to_bits f)) f.
Proof. destruct f; cbn [represents]; auto. Qed.

(** On a spectrum of [k] whole records and up to three more bytes, every
    read from the [k]-th on leaves in [floatyi] the last whole record (its
    first value when there is none) with the bytes left over written over
    its first bytes. *)
Lemma floatyi_at_tail (k : nat) :
  forall (data : string) (obj : Z) (j : nat),
    (4 * k <= slength data < 4 * k + 4)%nat ->
    (k <= j)%nat ->
    0 <= obj < 2 ^ 32 ->
    floatyi_at j (open_stream data) obj
    = bits_of_bytes
        (sdrop (4 * k) data
         +:+ sdrop (slength (sdrop (4 * k) data))
               (bytes_of_bits
                  match k with
                  | O => obj
                  | S k' => bits_of_bytes (stake 4 (sdrop (4 * k') data))
                  end)).
Proof.
  induction k as [|k IH]; intros data obj j Hlen Hj Hobj.
  - change (sdrop (4 * 0) data) with data.
    assert (Hread : read_float (open_stream data) obj
                    = (IStream EmptyString true true,
                       bits_of_bytes
                         (data +:+ sdrop (slength data) (bytes_of_bits obj)))).
    { unfold read_float. change (good (open_stream data)) with true. cbv iota.
      change (pending (open_stream data)) with data.
      rewrite (stake_all 4 data) by lia.
      destruct (Nat.eqb_spec (slength data) 4) as [E | _]; [lia | reflexivity]. }
    destruct j as [|j]; cbn [floatyi_at]; rewrite Hread; [reflexivity |].
    apply floatyi_at_spent; [left; reflexivity |].
    pose proof (bits_of_bytes_bounds
                  (data +:+ sdrop (slength data) (bytes_of_bits obj))) as Hb.
    rewrite slength_append, slength_sdrop, slength_bytes_of_bits in Hb.
    replace (slength data + (4 - slength data))%nat with 4%nat in Hb by lia.
    exact Hb.
  - destruct j as [|j]; [lia |]. cbn [floatyi_at].
    unfold read_float. change (good (open_stream data)) with true. cbv iota.
    change (pending (open_stream data)) with data.
    rewrite slength_stake.
    replace (Nat.min 4 (slength data)) with 4%nat by lia.
    change (4 =? 4)%nat with true. cbv iota.
    change (IStream (sdrop 4 data) false false) with (open_stream (sdrop 4 data)).
    rewrite (IH (sdrop 4 data)); [| rewrite slength_sdrop; lia | lia |].
    + rewrite sdrop_sdrop.
      replace (4 + 4 * k)%nat with (4 * S k)%nat by lia.
      do 4 f_equal.
      destruct k as [|k]; [reflexivity |].
      rewrite sdrop_sdrop. do 3 f_equal. lia.
    + pose proof (bits_of_bytes_bounds (stake 4 data)) as Hb.
      rewrite slength_stake in Hb.
      replace (Nat.min 4 (slength data)) with 4%nat in Hb by lia.
      exact Hb.
Qed.

(** X18.  A measured spectrum with fewer records than the header says is not
    an error.  From the first index without a whole record on, every record
    of the calibrated spectrum is computed from one and the same value of
    [floatyi]: the last whole record read (the uninitialised [floatyi] when
    there is none), its first bytes overwritten by the one to three bytes
    at the end of a file whose length is not a multiple of four. *)
Lemma short_spectrum_repeats_last_record
    (argv : list string) (fs : FileSystem) (u : Uninit)
    (g : GridMetadata) (pts : Z) (r : Response) (xmin xmax : double) (i : Z) :
  outcome (main argv fs u) = Exit 0 ->
  grid_read argv fs u = Some g ->
  numPts g = Some pts ->
  response_loaded argv fs u = Some r ->
  front (xVec r) = Some xmin ->
  back (xVec r) = Some xmax ->
  SpectrumDAT argv <> CalDAT argv ->
  Z.of_nat (slength (bytes_at fs (SpectrumDAT argv)) / 4) <= i < pts ->
  0 <= u_floatyi u < 2 ^ 32 ->
  exists m rec,
    gsl_fit (coefficients argv u) ((coefficients argv u - 2) mod 2 ^ 64)
      (n r) (xVec r) (yVec r) xmin xmax = Some m /\
    record i (bytes_at (final_fs (main argv fs u)) (CalDAT argv)) = Some rec /\
    represents rec
      (yCal g xmin xmax m i
         (last_read (bytes_at fs (SpectrumDAT argv)) (u_floatyi u))).
Proof.
  intros H Hg Hpts Hr Hmin Hmax Hne Hi Hu.
  destruct (main_calibrated_spectrum argv fs u g pts r xmin xmax
              H Hg Hpts Hr Hmin Hmax) as (m & fs1 & Hfit & Eout & ->).
  exists m. eexists. split; [exact Hfit |]. split.
  - rewrite record_calibrate by lia.
    rewrite (spectrum_seen argv fs fs1 Eout Hne).
    rewrite (floatyi_at_tail (slength (bytes_at fs (SpectrumDAT argv)) / 4));
      [reflexivity | | lia | assumption].
    pose proof (Nat.div_mod_eq (slength (bytes_at fs (SpectrumDAT argv))) 4).
    pose proof (Nat.mod_upper_bound (slength (bytes_at fs (SpectrumDAT argv))) 4).
    lia.
  - apply written_represents.
Qed.

(** The comparison of doubles is transitive. *)
Lemma SFleb_trans (a b c : spec_float) :
  SFleb a b = true -> SFleb b c = true -> SFleb a c = true.
Proof.
  unfold SFleb, SFcompare.
  destruct a as [sa | sa | | sa ma ea], b as [sb | sb | | sb mb eb],
           c as [sc | sc | | sc mc ec];
    try discriminate; try reflexivity;
    try destruct sa; try destruct sb; try destruct sc;
    try discriminate; try reflexivity;
    change (Pos.compare_cont Eq ?x ?y) with (Pos.compare x y);
    repeat
      match goal with
      | |- context [Z.compare ?x ?y] => destruct (Z.compare_spec x y)
      | |- context [Pos.compare ?x ?y] => destruct (Pos.compare_spec x y)
      end;
    cbn [CompOpp]; try discriminate; try reflexivity; intros; exfalso; subst; lia.
Qed.

(** X19.  The domain is taken from the first and the last sample, not from the
    smallest and the largest: when the first x value is not below or equal
    to the last one (a file in descending order, or a bound that is NaN),
    no index is inside the domain and every record of the calibrated
    spectrum is 0.0. *)
Lemma unsorted_response_gives_zeros
    (argv : list string) (fs : FileSystem) (u : Uninit)
    (g : GridMetadata) (pts : Z) (r : Response) (xmin xmax : double) (i : Z) :
  outcome (main argv fs u) = Exit 0 ->
  grid_read argv fs u = Some g ->
  numPts g = Some pts ->
  response_loaded argv fs u = Some r ->
  front (xVec r) = Some xmin ->
  back (xVec r) = Some xmax ->
  D.leb xmin xmax = false ->
  0 <= i < pts ->
  record i (bytes_at (final_fs (main argv fs u)) (CalDAT argv))
  = Some zero_record.
Proof.
  intros H Hg Hpts Hr Hmin Hmax Hord Hi.
  destruct (main_calibrated_spectrum argv fs u g pts r xmin xmax
              H Hg Hpts Hr Hmin Hmax) as (m & fs1 & _ & _ & ->).
  rewrite record_calibrate by lia.
  assert (Hout : in_domain g xmin xmax i = false).
  { destruct (in_domain g xmin xmax i) eqn:E; [| reflexivity].
    unfold in_domain in E. apply andb_true_iff in E as [E1 E2].
    unfold D.geb, D.leb in *.
    rewrite (SFleb_trans _ _ _ E1 E2) in Hord. discriminate. }
  unfold yCal. rewrite Hout. reflexivity.
Qed.

Lemma digits2_pos_bounds (m : positive) :
  2 ^ (Z.pos (digits2_pos m) - 1) <= Z.pos m < 2 ^ Z.pos (digits2_pos m).
Proof.
  clear num_get gsl_fit gsl_est SplineFit.
  induction m as [m IH | m IH |]; cbn [digits2_pos].
  - rewrite Pos2Z.inj_succ.
    replace (Z.succ (Z.pos (digits2_pos m)) - 1)
      with (Z.succ (Z.pos (digits2_pos m) - 1)) by lia.
    rewrite !Z.pow_succ_r by lia. lia.
  - rewrite Pos2Z.inj_succ.
    replace (Z.succ (Z.pos (digits2_pos m)) - 1)
      with (Z.succ (Z.pos (digits2_pos m) - 1)) by lia.
    rewrite !Z.pow_succ_r by lia. lia.
  - simpl. lia.
Qed.

(** The 32 bits written for a float decode to that float: what the program
    writes with [write ((char * ) &yCal, ...)] is what a [read] of the same
    four bytes delivers. *)
Lemma float_bits_round_trip (f : float) :
  valid_binary F.prec F.emax f = true ->
  F.of_bits (F.to_bits f) = f.
Proof.
  clear num_get gsl_fit gsl_est SplineFit.
  destruct f as [s | s | | s m e]; intros Hv.
  - destruct s; reflexivity.
  - destruct s; reflexivity.
  - reflexivity.
  - unfold valid_binary, bounded, canonical_mantissa, fexp, emin in Hv.
    apply andb_true_iff in Hv as [Hc He].
    apply Z.eqb_eq in Hc. apply Z.leb_le in He.
    unfold F.prec, F.emax in Hc, He.
    pose proof (digits2_pos_bounds m) as Hd.
    set (d := Z.pos (digits2_pos m)) in *.
    assert (Hcases : (d = 24 /\ -149 <= e) \/ (d < 24 /\ e = -149)) by lia.
    assert (Hsign : forall v, 0 <= v < 2 ^ 31 ->
              Z.testbit ((if s then 2 ^ 31 else 0) + v) 31 = s).
    { intros v Hvb. change (2 ^ 31) with 2147483648 in *. destruct s.
      - apply Z.testbit_true; [lia |]. change (2 ^ 31) with 2147483648.
        Z.div_mod_to_equations. lia.
      - apply Z.testbit_false; [lia |]. change (2 ^ 31) with 2147483648.
        Z.div_mod_to_equations. lia. }
    unfold F.to_bits, F.of_bits.
    change (2 ^ 23 - 1) with (Z.ones 23). change 255 with (Z.ones 8).
    rewrite !Z.land_ones, !Z.shiftr_div_pow2 by lia.
    destruct Hcases as [[Hd24 Hlo] | [Hd24 Hsub]].
    + rewrite Hd24 in Hd. change (2 ^ (24 - 1)) with 8388608 in Hd.
      change (2 ^ 24) with 16777216 in Hd.
      destruct (Z.ltb_spec (Z.pos m) (2 ^ 23)) as [Hlt | _];
        [change (2 ^ 23) with 8388608 in Hlt; lia |].
      rewrite Hsign
        by (change (2 ^ 31) with 2147483648; change (2 ^ 23) with 8388608; lia).
      assert (Hex : ((if s then 2 ^ 31 else 0)
                     + ((e + 150) * 2 ^ 23 + (Z.pos m - 2 ^ 23))) / 2 ^ 23
                    mod 2 ^ 8 = e + 150).
      { change (2 ^ 31) with 2147483648. change (2 ^ 23) with 8388608.
        change (2 ^ 8) with 256. destruct s; Z.div_mod_to_equations; lia. }
      assert (Hmant : ((if s then 2 ^ 31 else 0)
                       + ((e + 150) * 2 ^ 23 + (Z.pos m - 2 ^ 23))) mod 2 ^ 23
                      + 2 ^ 23 = Z.pos m).
      { change (2 ^ 31) with 2147483648. change (2 ^ 23) with 8388608.
        destruct s; Z.div_mod_to_equations; lia. }
      rewrite Hex.
      destruct (Z.eqb_spec (e + 150) 0) as [E0 | _]; [lia |].
      destruct (Z.eqb_spec (e + 150) (Z.ones 8)) as [E255 | _];
        [change (Z.ones 8) with 255 in E255; lia |].
      rewrite Hmant. f_equal. lia.
    + assert (Hm : Z.pos m < 2 ^ 23).
      { eapply Z.lt_le_trans; [apply Hd |]. apply Z.pow_le_mono_r; lia. }
      destruct (Z.ltb_spec (Z.pos m) (2 ^ 23)) as [_ | Hge]; [| lia].
      rewrite Hsign by (change (2 ^ 31) with 2147483648;
                        change (2 ^ 23) with 8388608 in Hm; lia).
      assert (Hex : ((if s then 2 ^ 31 else 0) + Z.pos m) / 2 ^ 23 mod 2 ^ 8 = 0).
      { change (2 ^ 31) with 2147483648. change (2 ^ 23) with 8388608 in *.
        change (2 ^ 8) with 256. destruct s; Z.div_mod_to_equations; lia. }
      assert (Hmant : ((if s then 2 ^ 31 else 0) + Z.pos m) mod 2 ^ 23 = Z.pos m).
      { change (2 ^ 31) with 2147483648. change (2 ^ 23) with 8388608 in *.
        destruct s; Z.div_mod_to_equations; lia. }
      rewrite Hex, Hmant. cbn [Z.eqb]. now subst e.
Qed.

Lemma to_bits_bounds (f : float) :
  valid_binary F.prec F.emax f = true -> 0 <= F.to_bits f < 2 ^ 32.
Proof.
  clear num_get gsl_fit gsl_est SplineFit.
  destruct f as [s | s | | s m e]; intros Hv;
    try (destruct s; cbn; lia); [cbn; lia |].
  unfold valid_binary, bounded, canonical_mantissa, fexp, emin in Hv.
  apply andb_true_iff in Hv as [Hc He].
  apply Z.eqb_eq in Hc. apply Z.leb_le in He.
  unfold F.prec, F.emax in Hc, He.
  pose proof (digits2_pos_bounds m) as Hd.
  set (d := Z.pos (digits2_pos m)) in *.
  unfold F.to_bits.
  change (2 ^ 31) with 2147483648. change (2 ^ 32) with 4294967296.
  change (2 ^ 23) with 8388608.
  destruct (Z.ltb_spec (Z.pos m) 8388608) as [Hlt | Hge].
  - destruct s; lia.
  - assert (Hd24 : d = 24).
    { assert (23 < d); [| lia].
      apply (Z.pow_lt_mono_r_iff 2); [lia | lia |].
      change (2 ^ 23) with 8388608. lia. }
    rewrite Hd24 in Hd. change (2 ^ 24) with 16777216 in Hd.
    destruct s; lia.
Qed.

(** X20.  A record the program writes is read back as the same float: the four
    bytes written for [yCal] are, for the [read] at the head of the loop,
    the bytes of that value. *)
Lemma written_record_read_back (f : float) (rest : string) (obj : Z) :
  valid_binary F.prec F.emax f = true ->
  read_float (open_stream (bytes_of_bits (F.to_bits f) +:+ rest)) obj
  = (open_stream rest, F.to_bits f) /\
  F.of_bits (F.to_bits f) = f.
Proof.
  clear num_get gsl_fit gsl_est SplineFit.
  intros Hv. split; [| now apply float_bits_round_trip].
  unfold read_float. change (good (open_stream ?x)) with true. cbv iota.
  change (pending (open_stream ?x)) with x.
  pose proof (stake_append (bytes_of_bits (F.to_bits f)) rest) as Htake.
  pose proof (sdrop_append (bytes_of_bits (F.to_bits f)) rest) as Hdrop.
  rewrite slength_bytes_of_bits in Htake, Hdrop. rewrite Htake, Hdrop.
  rewrite slength_bytes_of_bits. change (4 =? 4)%nat with true. cbv iota.
  rewrite bits_of_bytes_of_bits by now apply to_bits_bounds.
  reflexivity.
Qed.

(* ===================================================================== *)
(** ** Further properties: the order of the stages *)
(* ===================================================================== *)

Lemma load_loop_prints (fuel : nat) :
  forall (calData : istream) (LineString : string) (xi yi : double)
         (r r' : Response),
    load_loop fuel calData LineString xi yi r = Some r' ->
    Forall (fun e => is_fit e = false) (printed r) ->
    Forall (fun e => is_fit e = false) (printed r').
Proof.
  induction fuel as [|fuel IH]; intros calData LineString xi yi r r' H Hr;
    [discriminate |].
  cbn [load_loop] in H. destruct (eofbit calData).
  - now injection H as <-.
  - destruct (extract_double (Some LineString) xi) as [iss xi'].
    destruct (extract_double iss yi) as [iss' yi'].
    destruct (getline calData LineString) as [calData' L'].
    apply IH in H; [exact H |]. cbn [printed].
    apply Forall_app. split; [exact Hr | repeat constructor].
Qed.

Lemma no_fit_in (l : list Event) (e : Event) :
  Forall (fun e => is_fit e = false) l -> e ∈ l -> is_fit e = false.
Proof. intros Hl He. rewrite Forall_forall in Hl. auto. Qed.

Lemma getNumCoefficients_says (argv : list string) (ncoeffs0 : Z) :
  (fst (getNumCoefficients argv ncoeffs0) = 1 \/
   4 <= fst (getNumCoefficients argv ncoeffs0)) /\
  Forall (fun e => is_fit e = false) (snd (getNumCoefficients argv ncoeffs0)).
Proof.
  unfold getNumCoefficients.
  destruct (length argv =? REQUIRED_NUM_ARGS_MODE1)%nat.
  - cbn [fst snd]. split; [right; unfold DEFAULT_NUM_COEFFS; lia |].
    repeat constructor.
  - destruct (is_numeric (arg argv ARG_COEFFS));
      [| split; [left; reflexivity | repeat constructor]].
    destruct (Z.ltb_spec (read_size_t (arg argv ARG_COEFFS) ncoeffs0) 4);
      cbn [fst snd]; split; auto; repeat constructor.
Qed.

(** X21.  The GSL fit is called at most with the values the guard has let
    through: strictly more samples than coefficients, and [nbreak] two less
    than the number of coefficients modulo 2^64.  The number of coefficients
    may be the 1 that [getNumCoefficients] returns on an error. *)
Lemma fit_only_past_the_guard (argv : list string) (fs : FileSystem) (u : Uninit)
    (ncoeffs nbreak : Z) (k : nat) :
  Fit ncoeffs nbreak k ∈ trace (main argv fs u) ->
  ncoeffs = coefficients argv u /\
  nbreak = (ncoeffs - 2) mod 2 ^ 64 /\
  ncoeffs < Z.of_nat k /\
  (ncoeffs = 1 \/ 4 <= ncoeffs).
Proof.
  pose proof (getNumCoefficients_says argv (u_ncoeffs u)) as [Hc Hsaid].
  unfold main, coefficients.
  destruct (negb _ && negb _).
  { cbn [trace snd]. intros H. apply list_elem_of_singleton in H. discriminate. }
  destruct (getNumCoefficients argv (u_ncoeffs u)) as [c said].
  cbn [fst snd] in Hc, Hsaid |- *.
  rewrite !trace_emit. unfold metadata_stage. intros H.
  apply elem_of_app in H as [H | H];
    [apply list_elem_of_singleton in H; discriminate |].
  apply elem_of_app in H as [H | H].
  { apply elem_of_app in H as [H | H].
    - apply (no_fit_in _ _ Hsaid) in H. discriminate.
    - apply list_elem_of_singleton in H. discriminate. }
  destruct (open_in fs (SpectrumHDR argv)) as [file |].
  2: { cbn [trace snd] in H.
       repeat (apply elem_of_cons in H as [H | H]; [discriminate |]).
       now apply elem_of_nil in H. }
  rewrite trace_emit in H.
  apply elem_of_app in H as [H | H];
    [apply list_elem_of_singleton in H; discriminate |].
  destruct (read_grid file (open_stream file) u) as [header [g | e | |]].
  2-4: cbn [trace snd] in H;
       repeat (apply elem_of_cons in H as [H | H]; [discriminate |]);
       now apply elem_of_nil in H.
  destruct (numPts g) as [pts |];
    [| cbn [trace snd] in H; now apply elem_of_nil in H].
  rewrite trace_emit in H.
  apply elem_of_app in H as [H | H];
    [apply list_elem_of_singleton in H; discriminate |].
  unfold response_stage in H.
  destruct (open_in fs (arg argv ARG_RESPONSE)) as [content |].
  2: { cbn [trace snd] in H.
       repeat (apply elem_of_cons in H as [H | H]; [discriminate |]).
       now apply elem_of_nil in H. }
  destruct (load_response content u) as [r |] eqn:Eload.
  2: { cbn [trace snd] in H. apply list_elem_of_singleton in H. discriminate. }
  assert (Hprinted : Forall (fun e => is_fit e = false) (printed r)).
  { unfold load_response in Eload.
    destruct (getline (open_stream content) EmptyString) as [calData L].
    eapply load_loop_prints; [exact Eload | constructor]. }
  rewrite trace_emit in H.
  apply elem_of_app in H as [H | H].
  { apply elem_of_cons in H as [H | H]; [discriminate |].
    apply (no_fit_in _ _ Hprinted) in H. discriminate. }
  unfold fit_stage in H.
  destruct (xVec r !! O) as [xmin |];
    [| cbn [trace snd] in H; now apply elem_of_nil in H].
  destruct (xVec r !! _) as [xmax |];
    [| cbn [trace snd] in H; now apply elem_of_nil in H].
  destruct (Z.leb_spec (Z.of_nat (n r)) c) as [Hle | Hlt].
  { cbn [trace snd] in H. apply list_elem_of_singleton in H. discriminate. }
  assert (Hfit : Fit ncoeffs nbreak k = Fit c ((c - 2) mod 2 ^ 64) (n r)).
  { destruct (gsl_fit _ _ _ _ _ _ _) as [m |].
    - rewrite trace_emit in H. apply elem_of_app in H as [H | H].
      + apply elem_of_cons in H as [H | H]; [exact H |].
        repeat (apply elem_of_cons in H as [H | H]; [discriminate |]).
        now apply elem_of_nil in H.
      + exfalso. unfold calibration_stage in H.
        destruct (open_in fs (SpectrumDAT argv)).
        2: { cbn [trace snd] in H.
             apply list_elem_of_singleton in H. discriminate. }
        destruct (open_out fs (CalDAT argv)).
        2: { cbn [trace snd] in H.
             repeat (apply elem_of_cons in H as [H | H]; [discriminate |]).
             now apply elem_of_nil in H. }
        rewrite trace_emit in H. apply elem_of_app in H as [H | H].
        * repeat (apply elem_of_cons in H as [H | H]; [discriminate |]).
          now apply elem_of_nil in H.
        * unfold header_stage in H.
          destruct (copy_header _ _); cbn [trace snd] in H;
            apply list_elem_of_singleton in H; discriminate.
    - cbn [trace snd] in H. now apply list_elem_of_singleton in H. }
  injection Hfit as -> -> ->. repeat split; auto.
Qed.

Ltac find_disjunct :=
  solve [reflexivity | left; find_disjunct | right; find_disjunct].

(** X22.  The spectrum is opened first and tested last: when it does not exist
    (or when the output spectrum cannot be created) and everything else is
    in order, the run loads the response, calls the fit, and only then
    prints its error and exits with status 1, leaving the files untouched. *)
Lemma spectrum_tested_after_fit
    (argv : list string) (fs : FileSystem) (u : Uninit)
    (g : GridMetadata) (pts : Z) (r : Response) (xmin xmax : double) :
  (length argv = 4 \/ length argv = 5)%nat ->
  grid_read argv fs u = Some g ->
  numPts g = Some pts ->
  response_loaded argv fs u = Some r ->
  front (xVec r) = Some xmin ->
  back (xVec r) = Some xmax ->
  coefficients argv u < Z.of_nat (n r) ->
  is_Some (gsl_fit (coefficients argv u) ((coefficients argv u - 2) mod 2 ^ 64)
             (n r) (xVec r) (yVec r) xmin xmax) ->
  open_in fs (SpectrumDAT argv) = None \/ CalDAT argv ∈ unwritable fs ->
  outcome (main argv fs u) = Exit 1 /\
  final_fs (main argv fs u) = fs /\
  Fit (coefficients argv u) ((coefficients argv u - 2) mod 2 ^ 64) (n r)
  ∈ trace (main argv fs u) /\
  (last (trace (main argv fs u)) = Some (Print (ErrOpenSpectrum (SpectrumDAT argv)))
   \/ last (trace (main argv fs u)) = Some (Print (ErrWrite (CalDAT argv)))).
Proof.
  intros Hargc Hg Hpts Hr Hmin Hmax Hn [m Hfit] Hbad.
  destruct (grid_read_some _ _ _ _ Hg) as (file & header & Efile & Egrid).
  destruct (response_loaded_some _ _ _ _ Hr) as (content & Econtent & Eload).
  unfold main, coefficients in *.
  replace (negb (length argv =? REQUIRED_NUM_ARGS_MODE1)%nat
           && negb (length argv =? REQUIRED_NUM_ARGS_MODE2)%nat)
    with false by (destruct Hargc as [-> | ->]; reflexivity).
  destruct (getNumCoefficients argv (u_ncoeffs u)) as [ncoeffs said].
  cbn [fst] in *.
  rewrite !outcome_emit, !final_fs_emit, !trace_emit. unfold metadata_stage.
  rewrite Efile, outcome_emit, final_fs_emit, trace_emit, Egrid, Hpts,
    outcome_emit, final_fs_emit, trace_emit.
  unfold response_stage.
  rewrite Econtent, Eload, outcome_emit, final_fs_emit, trace_emit.
  unfold fit_stage, front, back in *. rewrite Hmin, Hmax.
  destruct (Z.leb_spec (Z.of_nat (n r)) ncoeffs) as [Hle | _]; [lia |].
  rewrite Hfit, outcome_emit, final_fs_emit, trace_emit.
  unfold calibration_stage, open_out.
  destruct (open_in fs (SpectrumDAT argv)) as [spectrum |].
  - destruct Hbad as [Hbad | Hbad]; [discriminate |].
    destruct (decide (CalDAT argv ∈ unwritable fs)); [| contradiction].
    cbn [outcome final_fs trace fst snd]. repeat split.
    + rewrite !elem_of_app, !elem_of_cons. find_disjunct.
    + right. rewrite !app_assoc.
      change [OpenOut (CalDAT argv) false; Print (ErrWrite (CalDAT argv))]
        with ([OpenOut (CalDAT argv) false] ++ [Print (ErrWrite (CalDAT argv))]).
      rewrite !app_assoc. apply last_snoc.
  - cbn [outcome final_fs trace fst snd]. repeat split.
    + rewrite !elem_of_app, !elem_of_cons. find_disjunct.
    + left. rewrite !app_assoc. apply last_snoc.
Qed.

End Program.

(* ===================================================================== *)
(** ** The standard error of the estimate *)
(* ===================================================================== *)

Section Estimators.
Variable num_get : string -> option (double * string).
Variable SplineFit : Type.
Variable gsl_fit :
  Z -> Z -> nat -> list double -> list double -> double -> double -> option SplineFit.

(** Two estimators that agree on [ySpline] and may differ on [yerr]. *)
Variables est est' : SplineFit -> double -> double * double.
Hypothesis same_estimate : forall m x, fst (est' m x) = fst (est m x).







End Estimators.



(* ===================================================================== *)
(** ** The program on the sample inputs *)
(* ===================================================================== *)

(** C2, the claim as stated: on a line whose value is written in columns 10
    to 32 (counted from 0), the number in those columns is 1234567, and the
    function returns 123456, the number in columns 9 to 31. *)
Lemma columns_10_32_counterexample :
  first_token Sample.wide_line EmptyString = "npo" /\
  fst <$> Decimal.num_get (skipws (columns 10 32 Sample.wide_line))
  = Some (D.of_int 1234567) /\
  snd (getXGremlinHeaderField Decimal.num_get
         (Sample.wide_line +:+ String newline EmptyString)
         (open_stream EmptyString) "npo" D.zero)
  = Returned (D.of_int 123456) /\
  D.of_int 123456 <> D.of_int 1234567.
Proof. repeat split; vm_compute; congruence. Qed.

(** Two more lines that name the field and whose value is not returned: a
    line shorter than nine characters ([substr] throws, the program is
    terminated), and a second line with the same name (the scan stops on the
    first). *)
Example lines_not_read :
  snd (getXGremlinHeaderField Decimal.num_get "npo = 3
" (open_stream EmptyString) "npo" D.zero) = Terminated /\
  snd (getXGremlinHeaderField Decimal.num_get "delw    = 1
delw    = 2
" (open_stream EmptyString) "delw" D.zero) = Returned (D.of_int 1).
Proof. split; vm_compute; reflexivity. Qed.

Lemma getXGremlinHeaderField_columns_9_31_witness :
  (9 <= slength Sample.wstart_line)%nat /\
  first_token Sample.wstart_line EmptyString = "wstart" /\
  snd (getXGremlinHeaderField Decimal.num_get Sample.header (open_stream Sample.header) "wstart" D.zero)
  = Returned (D.of_int 100).
Proof.
  split; [vm_compute; lia |]. split; [reflexivity |].
  eapply (getXGremlinHeaderField_columns_9_31 Decimal.num_get "wstart"
            [Sample.id_line] Sample.wstart_line
            (Sample.middle_lines +:+ Sample.npo_line +:+ String newline EmptyString)
            (open_stream Sample.header) D.zero (D.of_int 100)).
  - discriminate.
  - repeat constructor. vm_compute. discriminate.
  - reflexivity.
  - reflexivity.
  - reflexivity.
  - vm_compute. lia.
  - reflexivity.
  - vm_compute. reflexivity.
Defined.

Lemma getXGremlinHeaderField_unterminated_last_line_witness :
  first_token Sample.npo_line EmptyString = "npo" /\
  no_newline Sample.npo_line = true /\
  snd (getXGremlinHeaderField Decimal.num_get Sample.header_cut (open_stream Sample.header_cut) "npo" D.zero)
  = Thrown 1.
Proof.
  split; [reflexivity |]. split; [reflexivity |].
  destruct (getXGremlinHeaderField_unterminated_last_line Decimal.num_get "npo"
              [Sample.id_line; Sample.wstart_line;
               "wstop   =       102.0000000000 / last wavenumber";
               "delw    =         1.0000000000 / dispersion"]
              Sample.npo_line (open_stream Sample.header_cut) D.zero)
    as (H & L & N & _ & _ & _ & _ & E).
  - discriminate.
  - repeat constructor; vm_compute; discriminate.
  - reflexivity.
  - reflexivity.
  - reflexivity.
  - exact E.
Defined.

(** C4, the claim as stated: a blank line at the end of the response file
    adds a sample, a copy of the last pair. *)
Lemma blank_line_adds_sample :
  (n <$> load_response Decimal.num_get "1 2
3 4
" Sample.uninit) = Some 2%nat /\
  (n <$> load_response Decimal.num_get "1 2
3 4

" Sample.uninit) = Some 3%nat /\
  (xVec <$> load_response Decimal.num_get "1 2
3 4

" Sample.uninit) = Some [D.of_int 1; D.of_int 3; D.of_int 3].
Proof. repeat split; vm_compute; reflexivity. Qed.

Lemma load_response_rows_witness :
  exists r,
    load_response Decimal.num_get "101 2
102 4
   " Sample.uninit = Some r /\
    n r = 2%nat /\
    xVec r = [D.of_int 101; D.of_int 102] /\
    yVec r = [D.of_int 2; D.of_int 4].
Proof.
  apply (load_response_rows Decimal.num_get
           [ {| row_text := "101 2"; row_x := D.of_int 101; row_y := D.of_int 2 |};
             {| row_text := "102 4"; row_x := D.of_int 102; row_y := D.of_int 4 |} ]
           "   " Sample.uninit).
  - repeat constructor; try reflexivity;
      unfold holds_pair; cbn [row_text row_x row_y];
      do 6 eexists; repeat split; vm_compute; reflexivity.
  - reflexivity.
  - reflexivity.
Defined.

(** The sample run: grid 100, 101, 102; response domain [[101, 105]];
    measured floats 1.0, 3.0, 5.0; estimate 2 everywhere. *)
Lemma calibrated_zero_outside_domain_witness :
  outcome (main Decimal.num_get unit Sample.fit Sample.est Sample.argv
             (Sample.disk Sample.response) Sample.uninit) = Exit 0 /\
  record 0 (bytes_at (final_fs (main Decimal.num_get unit Sample.fit Sample.est
                                  Sample.argv (Sample.disk Sample.response)
                                  Sample.uninit)) "out.dat")
  = Some zero_record.
Proof.
  split; [vm_compute; reflexivity |].
  eapply (calibrated_zero_outside_domain Decimal.num_get unit Sample.fit Sample.est
            Sample.argv (Sample.disk Sample.response) Sample.uninit).
  - vm_compute. reflexivity.
  - vm_compute. reflexivity.
  - reflexivity.
  - vm_compute. reflexivity.
  - reflexivity.
  - reflexivity.
  - lia.
  - vm_compute. reflexivity.
Defined.

Lemma calibrated_record_count_witness :
  slength (bytes_at (final_fs (main Decimal.num_get unit Sample.fit Sample.est
                                 Sample.argv (Sample.disk Sample.response)
                                 Sample.uninit)) "out.dat")
  = 12%nat.
Proof.
  destruct (calibrated_record_count Decimal.num_get unit Sample.fit Sample.est
              Sample.argv (Sample.disk Sample.response) Sample.uninit
              (Grid (D.of_int 100) (D.of_int 102) (D.of_int 1) (Some 3)) 3)
    as [Hlen _].
  - vm_compute. reflexivity.
  - vm_compute. reflexivity.
  - reflexivity.
  - exact Hlen.
Defined.



(** C7 (the code at the failing input).  With an empty response file no
    sample is loaded, [n = 0 <= 200], and the run does not end with the
    insufficient-samples error: it reads [xVec[0]] of an empty vector. *)
Theorem empty_response_undefined :
  (n <$> response_loaded Decimal.num_get Sample.argv_default
           (Sample.disk EmptyString) Sample.uninit) = Some O /\
  coefficients Sample.argv_default Sample.uninit = 200 /\
  outcome (main Decimal.num_get unit Sample.fit Sample.est Sample.argv_default
             (Sample.disk EmptyString) Sample.uninit) = Undefined /\
  Print (ErrTooFewPoints "resp")
  ∉ trace (main Decimal.num_get unit Sample.fit Sample.est Sample.argv_default
             (Sample.disk EmptyString) Sample.uninit).
Proof.
  repeat split; try (vm_compute; reflexivity).
  vm_compute. intros H. repeat (inversion H as [| ? ? ? H']; clear H; rename H' into H).
Qed.

(** C8 (the code at the failing input).  When [out.hdr] cannot be opened
    for writing, the run still exits with status 0 and there is no output
    header; and when the output name is the input name, the run exits with
    status 0 and the header, input and output at once, is left empty. *)
Theorem unopened_output_header_exit_0 :
  (outcome (main Decimal.num_get unit Sample.fit Sample.est Sample.argv
              Sample.locked_disk Sample.uninit) = Exit 0 /\
   files (final_fs (main Decimal.num_get unit Sample.fit Sample.est Sample.argv
                      Sample.locked_disk Sample.uninit)) !! "out.hdr" = None /\
   files Sample.locked_disk !! "spec.hdr" = Some Sample.header) /\
  (outcome (main Decimal.num_get unit Sample.fit Sample.est Sample.argv_in_place
              (Sample.disk Sample.response) Sample.uninit) = Exit 0 /\
   files (final_fs (main Decimal.num_get unit Sample.fit Sample.est
                      Sample.argv_in_place (Sample.disk Sample.response)
                      Sample.uninit)) !! "spec.hdr" = Some EmptyString).
Proof. repeat split; vm_compute; reflexivity. Qed.

(** A response file whose only line has no newline: no sample is loaded. *)
Lemma bounds_read_before_guard_witness :
  (n <$> response_loaded Decimal.num_get Sample.argv (Sample.disk "101 2")
           Sample.uninit) = Some O /\
  outcome (main Decimal.num_get unit Sample.fit Sample.est Sample.argv
             (Sample.disk "101 2") Sample.uninit) = Undefined.
Proof.
  split; [vm_compute; reflexivity |].
  eapply (bounds_read_before_guard Decimal.num_get unit Sample.fit Sample.est
            Sample.argv (Sample.disk "101 2") Sample.uninit).
  - right. reflexivity.
  - vm_compute. reflexivity.
  - reflexivity.
  - vm_compute. reflexivity.
  - reflexivity.
Defined.

(* ===================================================================== *)
(** ** The further properties on sample inputs *)
(* ===================================================================== *)

Lemma main_failure_writes_nothing_witness :
  outcome (main Decimal.num_get unit Sample.fit Sample.est Sample.argv
             Sample2.disk_no_response Sample.uninit) = Exit 1 /\
  final_fs (main Decimal.num_get unit Sample.fit Sample.est Sample.argv
              Sample2.disk_no_response Sample.uninit)
  = Sample2.disk_no_response.
Proof.
  split; [vm_compute; reflexivity |].
  apply (main_failure_writes_nothing Decimal.num_get unit Sample.fit Sample.est).
  vm_compute. discriminate.
Defined.

Lemma main_frame_witness :
  files (final_fs (main Decimal.num_get unit Sample.fit Sample.est Sample.argv
                     (Sample.disk Sample.response) Sample.uninit)) !! "resp"
  = Some Sample.response.
Proof.
  apply (main_frame Decimal.num_get unit Sample.fit Sample.est Sample.argv
           (Sample.disk Sample.response) Sample.uninit "resp");
    vm_compute; discriminate.
Defined.

Lemma unwritable_header_goes_unnoticed_witness :
  files (final_fs (main Decimal.num_get unit Sample.fit Sample.est Sample.argv
                     Sample.locked_disk Sample.uninit)) !! "out.hdr"
  = None.
Proof.
  apply (unwritable_header_goes_unnoticed Decimal.num_get unit Sample.fit Sample.est
           Sample.argv Sample.locked_disk Sample.uninit).
  - vm_compute. reflexivity.
  - vm_compute. reflexivity.
Defined.

Lemma output_onto_input_empties_header_witness :
  files (final_fs (main Decimal.num_get unit Sample.fit Sample.est
                     Sample.argv_in_place (Sample.disk Sample.response)
                     Sample.uninit)) !! "spec.hdr"
  = Some EmptyString.
Proof.
  apply (output_onto_input_empties_header Decimal.num_get unit Sample.fit Sample.est
           Sample.argv_in_place (Sample.disk Sample.response) Sample.uninit).
  - vm_compute. reflexivity.
  - reflexivity.
  - vm_compute. intros H. inversion H.
Defined.

Lemma header_copy_exact_witness :
  files (final_fs (main Decimal.num_get unit Sample.fit Sample.est Sample.argv
                     (Sample.disk Sample.response) Sample.uninit)) !! "out.hdr"
  = Some Sample.header.
Proof.
  apply (header_copy_exact Decimal.num_get unit Sample.fit Sample.est Sample.argv
           (Sample.disk Sample.response) Sample.uninit).
  - vm_compute. reflexivity.
  - vm_compute. intros H. inversion H.
  - vm_compute. discriminate.
Defined.

Lemma guard_stops_short_response_witness :
  outcome (main Decimal.num_get unit Sample.fit Sample.est Sample.argv
             (Sample.disk Sample2.response_three) Sample.uninit) = Exit 1 /\
  final_fs (main Decimal.num_get unit Sample.fit Sample.est Sample.argv
              (Sample.disk Sample2.response_three) Sample.uninit)
  = Sample.disk Sample2.response_three.
Proof.
  destruct (guard_stops_short_response Decimal.num_get unit Sample.fit Sample.est
              Sample.argv (Sample.disk Sample2.response_three) Sample.uninit
              (Grid (D.of_int 100) (D.of_int 102) (D.of_int 1) (Some 3)) 3
              (Loaded 3 (D.of_int <$> [101; 102; 103]) (D.of_int <$> [2; 2; 2])
                 ((fun x => Print (Sample (D.of_int x) (D.of_int 2)))
                    <$> [101; 102; 103])))
    as (Hout & Hfs & _).
  - right. reflexivity.
  - vm_compute. reflexivity.
  - reflexivity.
  - vm_compute. reflexivity.
  - simpl. lia.
  - vm_compute. discriminate.
  - split; assumption.
Defined.

Lemma getXGremlinHeaderField_missing_witness :
  snd (getXGremlinHeaderField Decimal.num_get Sample2.header_no_delw
         (open_stream Sample2.header_no_delw) "delw" D.zero)
  = Thrown 1.
Proof.
  apply (getXGremlinHeaderField_missing Decimal.num_get "delw"
           [Sample.id_line; Sample.wstart_line; Sample2.wstop_line; Sample.npo_line]
           EmptyString (open_stream Sample2.header_no_delw) D.zero).
  - discriminate.
  - repeat constructor; vm_compute; discriminate.
  - reflexivity.
  - reflexivity.
Defined.

Lemma getXGremlinHeaderField_short_line_witness :
  snd (getXGremlinHeaderField Decimal.num_get
         (Sample2.short_line +:+ String newline EmptyString)
         (open_stream EmptyString) "npo" D.zero)
  = Terminated.
Proof.
  apply (getXGremlinHeaderField_short_line Decimal.num_get "npo" []
           Sample2.short_line EmptyString (open_stream EmptyString) D.zero).
  - discriminate.
  - constructor.
  - reflexivity.
  - reflexivity.
  - reflexivity.
  - vm_compute. lia.
Defined.

Lemma getXGremlinHeaderField_no_number_witness :
  snd (getXGremlinHeaderField Decimal.num_get
         (Sample2.blank_value_line +:+ String newline EmptyString)
         (open_stream EmptyString) "npo" (D.of_int 7))
  = Returned (D.of_int 7) /\
  snd (getXGremlinHeaderField Decimal.num_get
         (Sample2.text_value_line +:+ String newline EmptyString)
         (open_stream EmptyString) "npo" (D.of_int 7))
  = Returned D.zero.
Proof.
  split.
  - apply (getXGremlinHeaderField_no_number Decimal.num_get "npo" []
             Sample2.blank_value_line EmptyString (open_stream EmptyString)
             (D.of_int 7)).
    + discriminate.
    + constructor.
    + reflexivity.
    + reflexivity.
    + reflexivity.
    + vm_compute. lia.
    + reflexivity.
  - eapply (proj2 (getXGremlinHeaderField_no_number Decimal.num_get "npo" []
                     Sample2.text_value_line EmptyString (open_stream EmptyString)
                     (D.of_int 7) _ _ _ _ _ _)).
    + reflexivity.
    + reflexivity.
    Unshelve.
    * discriminate.
    * constructor.
    * reflexivity.
    * reflexivity.
    * reflexivity.
    * vm_compute. lia.
Defined.

Lemma read_grid_lookups_witness :
  snd (read_grid Decimal.num_get Sample.header (open_stream Sample.header)
         Sample.uninit)
  = Returned (Grid (D.of_int 100) (D.of_int 102) (D.of_int 1) (Some 3)).
Proof.
  rewrite (proj2 (read_grid_lookups Decimal.num_get Sample.header
                    (open_stream Sample.header) Sample.uninit eq_refl)).
  vm_compute. reflexivity.
Defined.

Lemma missing_field_exit_1_witness :
  outcome (main Decimal.num_get unit Sample.fit Sample.est Sample.argv
             (Sample2.disk Sample2.header_no_delw Sample.response Sample.spectrum)
             Sample.uninit)
  = Exit 1.
Proof.
  apply (missing_field_exit_1 Decimal.num_get unit Sample.fit Sample.est Sample.argv
           (Sample2.disk Sample2.header_no_delw Sample.response Sample.spectrum)
           Sample.uninit Sample2.header_no_delw "delw").
  - right. reflexivity.
  - vm_compute. reflexivity.
  - repeat constructor.
  - vm_compute. reflexivity.
  - intros t Ht.
    repeat (apply elem_of_cons in Ht as [-> | Ht]; [vm_compute; discriminate |]).
    now apply elem_of_nil in Ht.
Defined.

(** A blank first line, a data line, a blank line, then a last data line
    without newline: three samples, the first from the uninitialised
    [xi = 8], [yi = 9], the third a copy of the second. *)
Lemma load_response_lines_witness :
  exists r,
    load_response Decimal.num_get "
101 2

102 4" Sample.uninit = Some r /\
    n r = 3%nat /\
    xVec r = [D.of_int 8; D.of_int 101; D.of_int 101] /\
    yVec r = [D.of_int 9; D.of_int 2; D.of_int 2].
Proof.
  apply (load_response_lines Decimal.num_get
           [ BlankLine EmptyString;
             DataLine {| row_text := "101 2"; row_x := D.of_int 101;
                         row_y := D.of_int 2 |};
             BlankLine EmptyString ]
           "102 4" Sample.uninit).
  - repeat constructor; try reflexivity;
      unfold holds_pair; cbn [row_text row_x row_y];
      do 6 eexists; repeat split; vm_compute; reflexivity.
  - reflexivity.
Defined.

(** Three points in the grid, seven bytes in the spectrum: the record 1.0
    and three bytes 00 00 40.  From index 1 on [floatyi] holds 00 00 40 3F,
    which is 0.75, and records 1 and 2 are 0.75 / 2 = 0.375. *)
Lemma short_spectrum_repeats_last_record_witness :
  record 2 (bytes_at (final_fs (main Decimal.num_get unit Sample.fit Sample.est
                                  Sample.argv
                                  (Sample2.disk Sample.header Sample.response
                                     Sample2.spectrum_seven)
                                  Sample.uninit)) "out.dat")
  = Some (bytes_of_bits 1052770304).
Proof.
  destruct (short_spectrum_repeats_last_record Decimal.num_get unit Sample.fit
              Sample.est Sample.argv
              (Sample2.disk Sample.header Sample.response Sample2.spectrum_seven)
              Sample.uninit
              (Grid (D.of_int 100) (D.of_int 102) (D.of_int 1) (Some 3)) 3
              (Loaded 5
                 (D.of_int <$> [101; 102; 103; 104; 105])
                 (D.of_int <$> [2; 2; 2; 2; 2])
                 ((fun x => Print (Sample (D.of_int x) (D.of_int 2)))
                    <$> [101; 102; 103; 104; 105]))
              (D.of_int 101) (D.of_int 105) 2)
    as (m & rec & _ & Hrec & Hrep).
  - vm_compute. reflexivity.
  - vm_compute. reflexivity.
  - reflexivity.
  - vm_compute. reflexivity.
  - reflexivity.
  - reflexivity.
  - vm_compute. discriminate.
  - vm_compute. split; [discriminate | reflexivity].
  - vm_compute. split; [discriminate | reflexivity].
  - refine (eq_trans Hrec _). destruct m. vm_compute in Hrep.
    rewrite Hrep. vm_compute. reflexivity.
Defined.

(** A response in descending order: xmin = 105, xmax = 101, and record 1
    (wavenumber 101) is zero although 101 is one of the sample points. *)
Lemma unsorted_response_gives_zeros_witness :
  record 1 (bytes_at (final_fs (main Decimal.num_get unit Sample.fit Sample.est
                                  Sample.argv
                                  (Sample.disk Sample2.response_descending)
                                  Sample.uninit)) "out.dat")
  = Some zero_record.
Proof.
  apply (unsorted_response_gives_zeros Decimal.num_get unit Sample.fit Sample.est
           Sample.argv (Sample.disk Sample2.response_descending) Sample.uninit
           (Grid (D.of_int 100) (D.of_int 102) (D.of_int 1) (Some 3)) 3
           (Loaded 5
              (D.of_int <$> [105; 104; 103; 102; 101])
              (D.of_int <$> [2; 2; 2; 2; 2])
              ((fun x => Print (Sample (D.of_int x) (D.of_int 2)))
                 <$> [105; 104; 103; 102; 101]))
           (D.of_int 105) (D.of_int 101) 1).
  - vm_compute. reflexivity.
  - vm_compute. reflexivity.
  - reflexivity.
  - vm_compute. reflexivity.
  - reflexivity.
  - reflexivity.
  - vm_compute. reflexivity.
  - lia.
Defined.

Lemma written_record_read_back_witness :
  read_float (open_stream (bytes_of_bits 1069547520 +:+ "rest")) 0
  = (open_stream "rest", 1069547520) /\
  F.of_bits 1069547520 = F.div (F.of_double (D.of_int 3)) (F.of_double (D.of_int 2)).
Proof.
  apply (written_record_read_back
           (F.div (F.of_double (D.of_int 3)) (F.of_double (D.of_int 2))) "rest" 0).
  vm_compute. reflexivity.
Defined.

Lemma fit_only_past_the_guard_witness :
  4 = coefficients Sample.argv Sample.uninit /\
  2 = (4 - 2) mod 2 ^ 64 /\
  4 < Z.of_nat 5 /\
  (4 = 1 \/ 4 <= 4).
Proof.
  apply (fit_only_past_the_guard Decimal.num_get unit Sample.fit Sample.est
           Sample.argv (Sample.disk Sample.response) Sample.uninit 4 2 5%nat).
  vm_compute. repeat constructor.
Defined.

Lemma spectrum_tested_after_fit_witness :
  outcome (main Decimal.num_get unit Sample.fit Sample.est Sample.argv
             Sample2.disk_no_spectrum Sample.uninit) = Exit 1 /\
  Fit 4 2 5
  ∈ trace (main Decimal.num_get unit Sample.fit Sample.est Sample.argv
             Sample2.disk_no_spectrum Sample.uninit).
Proof.
  edestruct (spectrum_tested_after_fit Decimal.num_get unit Sample.fit Sample.est
               Sample.argv Sample2.disk_no_spectrum Sample.uninit)
    as (Hexit & _ & Hfit & _).
  - right. reflexivity.
  - vm_compute. reflexivity.
  - vm_compute. reflexivity.
  - vm_compute. reflexivity.
  - vm_compute. reflexivity.
  - vm_compute. reflexivity.
  - vm_compute. reflexivity.
  - eexists. reflexivity.
  - left. vm_compute. reflexivity.
  - split; [exact Hexit | exact Hfit].
Defined.
